(** * Client-side authentication flow of the login/registration page

    Shallow embedding of the two variants of the page
    ([login-register-tailwind.tsx], component [App], and
    [login-register-rsuite.tsx], component [LoginRegisterPage]):
    the session probe [checkAuth], the submission [handleSubmit], the
    tab handlers and the part of the rendered view that decides which
    handlers can run. *)

From Stdlib Require Import ZArith QArith Bool Lia.
From stdpp Require Import base strings list gmap.

Local Open Scope string_scope.
Local Open Scope Z_scope.

(** ** JavaScript values *)

(** The values a parsed response body can be, [undefined] (what reading a
    missing property gives) added.  A number is kept as a rational: the
    code only ever tests a number for truthiness, and a parsed JSON number
    is never NaN. *)
#[local] Unset Elimination Schemes.
Inductive JSValue : Type :=
| JUndefined
| JNull
| JBool (b : bool)
| JNum (n : Q)
| JStr (s : string)
| JArr (l : list JSValue)
| JObj (o : gmap string JSValue).
#[local] Set Elimination Schemes.

(** [ToBoolean]: [undefined], [null], [false], [0] and the empty string are
    falsy, every other value (arrays and objects included) is truthy. *)
Definition truthy (v : JSValue) : bool :=
  match v with
  | JUndefined | JNull => false
  | JBool b => b
  | JNum n => negb (Qeq_bool n 0)
  | JStr s => negb (String.eqb s "")
  | JArr _ | JObj _ => true
  end.

(** [a || b]: the left operand when it is truthy, the right one otherwise. *)
Definition js_or (a b : JSValue) : JSValue := if truthy a then a else b.

(** [!s] on a string of the component state. *)
Definition str_falsy (s : string) : bool := String.eqb s "".

(** ** Completions and the effect monad *)

Inductive JSError : Type := TypeError | SyntaxError | NetworkError.

(** How a block of statements ends: normally with a value, by [return;], or
    by a thrown error. *)
Inductive Completion (A : Type) : Type :=
| Normal (a : A)
| Return
| Throw (e : JSError).
Arguments Normal {A} a.
Arguments Return {A}.
Arguments Throw {A} e.

(** Statements run over a world [W] (component state and browser). *)
Definition M (W A : Type) : Type := W -> Completion A * W.

Definition ret {W A} (a : A) : M W A := fun w => (Normal a, w).
Definition throw {W A} (e : JSError) : M W A := fun w => (Throw e, w).
Definition return_ {W A} : M W A := fun w => (Return, w).
Definition lift {W A} (c : Completion A) : M W A := fun w => (c, w).
Definition modify {W} (f : W -> W) : M W unit := fun w => (Normal tt, f w).
Definition gets {W A} (f : W -> A) : M W A := fun w => (Normal (f w), w).

Definition bind {W A B} (m : M W A) (k : A -> M W B) : M W B :=
  fun w =>
    match m w with
    | (Normal a, w1) => k a w1
    | (Return, w1) => (Return, w1)
    | (Throw e, w1) => (Throw e, w1)
    end.

Notation "x <- m ;; k" := (bind m (fun x => k))
  (at level 100, m at next level, right associativity).
Notation "m ;; k" := (bind m (fun _ => k))
  (at level 100, right associativity).

(** [try { body } catch (err) { handler } finally { fin }]: the handler runs
    when the body throws, [fin] runs whatever way the body or the handler
    ended (also after [return;]), and the statement ends the way the body or
    handler did unless [fin] itself ends abruptly. *)
Definition try_catch_finally {W A}
    (body : M W A) (handler : JSError -> M W A) (fin : M W unit) : M W A :=
  fun w =>
    let '(c, w1) := body w in
    let '(c', w2) := match c with
                     | Throw e => handler e w1
                     | _ => (c, w1)
                     end in
    match fin w2 with
    | (Normal _, w3) => (c', w3)
    | (Return, w3) => (Return, w3)
    | (Throw e, w3) => (Throw e, w3)
    end.

(** A promise that has settled: what [await] finds. *)
Inductive Promise (A : Type) : Type :=
| Resolves (a : A)
| Rejects (e : JSError).
Arguments Resolves {A} a.
Arguments Rejects {A} e.

(** [await p]: the value of a fulfilled promise, a throw for a rejected one. *)
Definition await {W A} (p : Promise A) : M W A :=
  match p with
  | Resolves a => ret a
  | Rejects e => throw e
  end.

(** [p.catch(() => v)]: a rejected promise is replaced by [v]. *)
Definition promise_catch {A} (p : Promise A) (v : A) : Promise A :=
  match p with
  | Rejects _ => Resolves v
  | Resolves a => Resolves a
  end.

(** The promise an [async] function call returns: fulfilled when the body
    ends normally or by [return;], rejected when it throws. *)
Definition run_async {W A} (m : M W A) (w : W) : Promise unit * W :=
  match m w with
  | (Normal _, w') | (Return, w') => (Resolves tt, w')
  | (Throw e, w') => (Rejects e, w')
  end.

(** [v.k] for the property names the source reads ([username], [detail],
    [message]): a [TypeError] on [null] and [undefined], the own property of
    an object or [undefined] when it has none, and [undefined] on every
    other value (strings, numbers, booleans and arrays have no property of
    these names). *)
Definition get_prop (v : JSValue) (k : string) : Completion JSValue :=
  match v with
  | JUndefined | JNull => Throw TypeError
  | JObj o => Normal (default JUndefined (o !! k))
  | _ => Normal JUndefined
  end.

(** [a || b] with [b] evaluated only when [a] is falsy. *)
Definition or_else {W} (a b : M W JSValue) : M W JSValue :=
  x <- a ;; if truthy x then ret x else b.

(** ** Requests and responses *)

(** The two values [activeTab] takes: the initial state is ['login'] and the
    tab handlers only ever set ['login'] or ['register']. *)
Inductive Tab : Type := login | register.

Definition is_login (t : Tab) : bool :=
  match t with login => true | register => false end.

Definition API_BASE : string := "/api/v1".

(** A [fetch] call: the URL, the method, the [credentials] option and the
    JSON body [{username, password}] when there is one. *)
Record Request : Type := mkRequest {
  url : string;
  method : string;
  credentials : string;
  payload : option (string * string)
}.

(** A response as the code reads it: its status and what [response.json()]
    settles to (rejected when the body is not JSON). *)
Record Response : Type := mkResponse {
  status : Z;
  json : Promise JSValue
}.

(** [response.ok] (Fetch standard: the status is in the range 200 to 299). *)
Definition ok (r : Response) : bool :=
  (200 <=? status r) && (status r <=? 299).

(** The success test of [handleSubmit]: [response.ok || response.status === 201]. *)
Definition submit_succeeded (r : Response) : bool :=
  ok r || (status r =? 201).

(** The spec's wording of the success condition: the status is of the form 2xx. *)
Definition status_in_2xx (s : Z) : bool := s / 100 =? 2.

(** [activeTab === 'login' ? '/auth/login' : '/auth/register'] *)
Definition endpoint (t : Tab) : string :=
  if is_login t then "/auth/login" else "/auth/register".

(** [`${activeTab === 'login' ? 'Login' : 'Registration'} failed`] *)
Definition failed_text (t : Tab) : string :=
  (if is_login t then "Login" else "Registration") ++ " failed".

Definition whoami_request : Request :=
  mkRequest (API_BASE ++ "/auth/whoami") "GET" "include" None.

Definition submit_request (t : Tab) (username password : string) : Request :=
  mkRequest (API_BASE ++ endpoint t) "POST" "include" (Some (username, password)).

Definition network_error_text : string := "Network error. Please try again.".

(** ** The plain-styled variant ([login-register-tailwind.tsx]) *)

Module Tailwind.

(** The six [useState] cells of [App], and of the browser what the code
    acts on: the values assigned to [window.location.href] (each assignment
    starts a navigation) and the [fetch] calls issued, oldest first. *)
Record World : Type := mkWorld {
  activeTab : Tab;
  username : string;
  password : string;
  loading : bool;
  error : JSValue;
  checkingAuth : bool;
  navigations : list string;
  fetches : list Request
}.

(** The state at mount. *)
Definition initial : World :=
  mkWorld login "" "" false (JStr "") true [] [].

Definition setActiveTab (t : Tab) (w : World) : World :=
  mkWorld t (username w) (password w) (loading w) (error w)
          (checkingAuth w) (navigations w) (fetches w).
Definition setUsername (s : string) (w : World) : World :=
  mkWorld (activeTab w) s (password w) (loading w) (error w)
          (checkingAuth w) (navigations w) (fetches w).
Definition setPassword (s : string) (w : World) : World :=
  mkWorld (activeTab w) (username w) s (loading w) (error w)
          (checkingAuth w) (navigations w) (fetches w).
Definition setLoading (b : bool) (w : World) : World :=
  mkWorld (activeTab w) (username w) (password w) b (error w)
          (checkingAuth w) (navigations w) (fetches w).
Definition setError (v : JSValue) (w : World) : World :=
  mkWorld (activeTab w) (username w) (password w) (loading w) v
          (checkingAuth w) (navigations w) (fetches w).
Definition setCheckingAuth (b : bool) (w : World) : World :=
  mkWorld (activeTab w) (username w) (password w) (loading w) (error w)
          b (navigations w) (fetches w).
(** [window.location.href = target] *)
Definition navigate (target : string) (w : World) : World :=
  mkWorld (activeTab w) (username w) (password w) (loading w) (error w)
          (checkingAuth w) (navigations w ++ [target]) (fetches w).
Definition issue (req : Request) (w : World) : World :=
  mkWorld (activeTab w) (username w) (password w) (loading w) (error w)
          (checkingAuth w) (navigations w) (fetches w ++ [req]).

(** [checkAuth], from the point where [await fetch(...)] has settled to
    [probe]. *)
Definition checkAuth_resume (probe : Promise Response) : M World unit :=
  try_catch_finally
    (response <- await probe ;;
     if ok response then
       data <- await (json response) ;;
       name <- lift (get_prop data "username") ;;
       if truthy name then
         (modify (navigate "/home") ;; return_)
       else ret tt
     else ret tt)
    (fun _ => ret tt)
    (modify (setCheckingAuth false)).

(** [checkAuth]: the request is issued, and the rest runs on its outcome. *)
Definition checkAuth (probe : Promise Response) : M World unit :=
  modify (issue whoami_request) ;;
  checkAuth_resume probe.

(** [handleSubmit] up to the point where it suspends on [await fetch(...)]:
    [e.preventDefault()] has no effect on the state; the result is the
    [activeTab] the call closed over, which the rest of the body reads. *)
Definition handleSubmit_call : M World Tab :=
  modify (setError (JStr "")) ;;
  modify (setLoading true) ;;
  tab <- gets activeTab ;;
  name <- gets username ;;
  pass <- gets password ;;
  modify (issue (submit_request tab name pass)) ;;
  ret tab.

(** The rest of [handleSubmit], once the [fetch] has settled to [outcome]. *)
Definition handleSubmit_resume (tab : Tab) (outcome : Promise Response)
  : M World unit :=
  try_catch_finally
    (response <- await outcome ;;
     if submit_succeeded response then
       modify (navigate "/home")
     else
       data <- await (promise_catch (json response) (JObj ∅)) ;;
       msg <- or_else (or_else (lift (get_prop data "detail"))
                               (lift (get_prop data "message")))
                      (ret (JStr (failed_text tab))) ;;
       modify (setError msg))
    (fun _ => modify (setError (JStr network_error_text)))
    (modify (setLoading false)).

Definition handleSubmit (outcome : Promise Response) : M World unit :=
  tab <- handleSubmit_call ;;
  handleSubmit_resume tab outcome.

(** The [onClick] handlers of the two tab buttons. *)
Definition clickTab (t : Tab) : M World unit :=
  modify (setActiveTab t) ;;
  modify (setError (JStr "")).

(** The element tree [App] returns, as far as the handlers are concerned:
    the loading indicator alone while [checkingAuth], else the form with the
    [disabled] attribute of the two inputs and of the submit button, the
    button's label, and the error banner.  [banner] is the value [App]
    hands over as the child [{error}] of the banner element, present when
    [error] is truthy ([error && ...]); it is not yet what is drawn: what
    React makes of that child (text, nothing, or a throw) is [react_child]
    below. *)
Record FormView : Type := mkFormView {
  selected : Tab;
  banner : option JSValue;
  inputs_disabled : bool;
  submit_disabled : bool;
  submit_label : string
}.

Inductive View : Type :=
| LoadingIndicator
| LoginRegisterForm (f : FormView).

Definition render (w : World) : View :=
  if checkingAuth w then LoadingIndicator
  else LoginRegisterForm
         (mkFormView
            (activeTab w)
            (if truthy (error w) then Some (error w) else None)
            (loading w)
            (loading w)
            (if loading w
             then (if is_login (activeTab w) then "Logging in..." else "Registering...")
             else (if is_login (activeTab w) then "Login" else "Register"))).

(** The page between two events: the state, and the [handleSubmit] calls
    suspended on their [fetch] (each with the [activeTab] it closed over),
    oldest first. *)
Record Sys : Type := mkSys {
  world : World;
  suspended : list Tab
}.

Definition idle (w : World) : Sys := mkSys w [].

Inductive UiEvent : Type :=
| ClickLoginTab
| ClickRegisterTab
| ChangeUsername (s : string)
| ChangePassword (s : string)
| EnterInUsername
| EnterInPassword
| ClickSubmit.

Inductive Event : Type :=
| Ui (e : UiEvent)
| FetchSettles (i : nat) (outcome : Promise Response).

Definition run_handler (m : M World unit) (s : Sys) : Sys :=
  mkSys (snd (m (world s))) (suspended s).

Definition start_submit (s : Sys) : Sys :=
  match handleSubmit_call (world s) with
  | (Normal tab, w') => mkSys w' (suspended s ++ [tab])
  | (_, w') => mkSys w' (suspended s)
  end.

(** A user action reaches its handler only through a control that is
    rendered and not disabled. *)
Definition dispatch (e : UiEvent) (s : Sys) : Sys :=
  match render (world s) with
  | LoadingIndicator => s
  | LoginRegisterForm f =>
      match e with
      | ClickLoginTab => run_handler (clickTab login) s
      | ClickRegisterTab => run_handler (clickTab register) s
      | ChangeUsername v =>
          if inputs_disabled f then s else run_handler (modify (setUsername v)) s
      | ChangePassword v =>
          if inputs_disabled f then s else run_handler (modify (setPassword v)) s
      | EnterInUsername | EnterInPassword =>
          if inputs_disabled f then s else start_submit s
      | ClickSubmit =>
          if submit_disabled f then s else start_submit s
      end
  end.

Definition step (ev : Event) (s : Sys) : Sys :=
  match ev with
  | Ui e => dispatch e s
  | FetchSettles i outcome =>
      match suspended s !! i with
      | Some tab =>
          mkSys (snd (handleSubmit_resume tab outcome (world s)))
                (delete i (suspended s))
      | None => s
      end
  end.

Definition run (evs : list Event) (s : Sys) : Sys :=
  foldl (fun acc ev => step ev acc) s evs.

End Tailwind.

(** ** The component-library variant ([login-register-rsuite.tsx]) *)

Module RSuite.

Inductive ToastType : Type := warning | success | error.

(** A [toaster.push(<Message type=...>content</Message>, {placement:
    'topCenter', duration})] call. *)
Record Toast : Type := mkToast {
  toast_type : ToastType;
  content : JSValue;
  duration : Z
}.

(** The five [useState] cells of [LoginRegisterPage], the notifications
    pushed to the toaster (oldest first), the pending [setTimeout] callbacks
    (delay and the URL the callback assigns to [window.location.href]), and
    of the browser the navigations started and the [fetch] calls issued. *)
Record World : Type := mkWorld {
  activeTab : Tab;
  username : string;
  password : string;
  loading : bool;
  checkingAuth : bool;
  toasts : list Toast;
  timers : list (Z * string);
  navigations : list string;
  fetches : list Request
}.

Definition initial : World :=
  mkWorld login "" "" false true [] [] [] [].

Definition setActiveTab (t : Tab) (w : World) : World :=
  mkWorld t (username w) (password w) (loading w) (checkingAuth w)
          (toasts w) (timers w) (navigations w) (fetches w).
Definition setUsername (s : string) (w : World) : World :=
  mkWorld (activeTab w) s (password w) (loading w) (checkingAuth w)
          (toasts w) (timers w) (navigations w) (fetches w).
Definition setPassword (s : string) (w : World) : World :=
  mkWorld (activeTab w) (username w) s (loading w) (checkingAuth w)
          (toasts w) (timers w) (navigations w) (fetches w).
Definition setLoading (b : bool) (w : World) : World :=
  mkWorld (activeTab w) (username w) (password w) b (checkingAuth w)
          (toasts w) (timers w) (navigations w) (fetches w).
Definition setCheckingAuth (b : bool) (w : World) : World :=
  mkWorld (activeTab w) (username w) (password w) (loading w) b
          (toasts w) (timers w) (navigations w) (fetches w).
(** [toaster.push] *)
Definition push (t : Toast) (w : World) : World :=
  mkWorld (activeTab w) (username w) (password w) (loading w) (checkingAuth w)
          (toasts w ++ [t]) (timers w) (navigations w) (fetches w).
(** [setTimeout(() => { window.location.href = target }, delay)] *)
Definition setTimeout (delay : Z) (target : string) (w : World) : World :=
  mkWorld (activeTab w) (username w) (password w) (loading w) (checkingAuth w)
          (toasts w) (timers w ++ [(delay, target)]) (navigations w) (fetches w).
Definition clearTimer (i : nat) (w : World) : World :=
  mkWorld (activeTab w) (username w) (password w) (loading w) (checkingAuth w)
          (toasts w) (delete i (timers w)) (navigations w) (fetches w).
Definition navigate (target : string) (w : World) : World :=
  mkWorld (activeTab w) (username w) (password w) (loading w) (checkingAuth w)
          (toasts w) (timers w) (navigations w ++ [target]) (fetches w).
Definition issue (req : Request) (w : World) : World :=
  mkWorld (activeTab w) (username w) (password w) (loading w) (checkingAuth w)
          (toasts w) (timers w) (navigations w) (fetches w ++ [req]).

(** [checkAuth], from the point where [await fetch(...)] has settled to
    [probe]. *)
Definition checkAuth_resume (probe : Promise Response) : M World unit :=
  try_catch_finally
    (response <- await probe ;;
     if ok response then
       data <- await (json response) ;;
       name <- lift (get_prop data "username") ;;
       if truthy name then
         (modify (navigate "/home") ;; return_)
       else ret tt
     else ret tt)
    (fun _ => ret tt)
    (modify (setCheckingAuth false)).

Definition checkAuth (probe : Promise Response) : M World unit :=
  modify (issue whoami_request) ;;
  checkAuth_resume probe.

Definition fill_in_warning : Toast :=
  mkToast warning (JStr "Please fill in all fields") 3000.

(** [handleSubmit] up to the point where it suspends on [await fetch(...)],
    or to its [return;] when a field is empty. *)
Definition handleSubmit_call : M World Tab :=
  name <- gets username ;;
  pass <- gets password ;;
  (if str_falsy name || str_falsy pass then
     (modify (push fill_in_warning) ;; return_)
   else ret tt) ;;
  modify (setLoading true) ;;
  tab <- gets activeTab ;;
  modify (issue (submit_request tab name pass)) ;;
  ret tab.

(** The rest of [handleSubmit], once the [fetch] has settled to [outcome]. *)
Definition handleSubmit_resume (tab : Tab) (outcome : Promise Response)
  : M World unit :=
  try_catch_finally
    (response <- await outcome ;;
     if submit_succeeded response then
       modify (push (mkToast success
                       (JStr (if is_login tab then "Login successful!"
                              else "Registration successful!"))
                       2000)) ;;
       modify (setTimeout 500 "/home")
     else
       data <- await (promise_catch (json response) (JObj ∅)) ;;
       errorMsg <- or_else (or_else (lift (get_prop data "detail"))
                                    (lift (get_prop data "message")))
                           (ret (JStr (failed_text tab))) ;;
       modify (push (mkToast error errorMsg 4000)))
    (fun _ => modify (push (mkToast error (JStr network_error_text) 4000)))
    (modify (setLoading false)).

Definition handleSubmit (outcome : Promise Response) : M World unit :=
  tab <- handleSubmit_call ;;
  handleSubmit_resume tab outcome.

(** [onSelect={setActiveTab}] of the [Nav]. *)
Definition selectTab (t : Tab) : M World unit :=
  modify (setActiveTab t).

(** What [LoginRegisterPage] returns, as far as the handlers are concerned:
    the [disabled] prop of the two inputs, the [loading] prop of the submit
    button and its label.  The notifications are drawn by the toaster, not
    by this component. *)
Record FormView : Type := mkFormView {
  selected : Tab;
  inputs_disabled : bool;
  submit_loading : bool;
  submit_label : string
}.

Inductive View : Type :=
| LoadingIndicator
| LoginRegisterForm (f : FormView).

Definition render (w : World) : View :=
  if checkingAuth w then LoadingIndicator
  else LoginRegisterForm
         (mkFormView (activeTab w) (loading w) (loading w)
                     (if is_login (activeTab w) then "Login" else "Register")).

Section Page.

(** The [Button] component belongs to the [rsuite] library, not to the
    repository: whether a button still calls its [onClick] for a given value
    of its [loading] prop is a parameter of the page. *)
Variable button_clickable : bool -> bool.

Record Sys : Type := mkSys {
  world : World;
  suspended : list Tab
}.

Definition idle (w : World) : Sys := mkSys w [].

Inductive UiEvent : Type :=
| SelectTab (t : Tab)
| ChangeUsername (s : string)
| ChangePassword (s : string)
| EnterInUsername
| EnterInPassword
| ClickSubmit.

Inductive Event : Type :=
| Ui (e : UiEvent)
| FetchSettles (i : nat) (outcome : Promise Response)
| TimerFires (i : nat).

Definition run_handler (m : M World unit) (s : Sys) : Sys :=
  mkSys (snd (m (world s))) (suspended s).

Definition start_submit (s : Sys) : Sys :=
  match handleSubmit_call (world s) with
  | (Normal tab, w') => mkSys w' (suspended s ++ [tab])
  | (_, w') => mkSys w' (suspended s)
  end.

Definition dispatch (e : UiEvent) (s : Sys) : Sys :=
  match render (world s) with
  | LoadingIndicator => s
  | LoginRegisterForm f =>
      match e with
      | SelectTab t => run_handler (selectTab t) s
      | ChangeUsername v =>
          if inputs_disabled f then s else run_handler (modify (setUsername v)) s
      | ChangePassword v =>
          if inputs_disabled f then s else run_handler (modify (setPassword v)) s
      | EnterInUsername | EnterInPassword =>
          if inputs_disabled f then s else start_submit s
      | ClickSubmit =>
          if button_clickable (submit_loading f) then start_submit s else s
      end
  end.

Definition step (ev : Event) (s : Sys) : Sys :=
  match ev with
  | Ui e => dispatch e s
  | FetchSettles i outcome =>
      match suspended s !! i with
      | Some tab =>
          mkSys (snd (handleSubmit_resume tab outcome (world s)))
                (delete i (suspended s))
      | None => s
      end
  | TimerFires i =>
      match timers (world s) !! i with
      | Some (_, target) =>
          mkSys (navigate target (clearTimer i (world s))) (suspended s)
      | None => s
      end
  end.

Definition run (evs : list Event) (s : Sys) : Sys :=
  foldl (fun acc ev => step ev acc) s evs.

End Page.

End RSuite.

(** ** Definitions used in the statements *)

(** The message [data.detail || data.message || fallback] as a function of
    the two properties read. *)
Definition pick_message (detail message : JSValue) (t : Tab) : JSValue :=
  js_or (js_or detail message) (JStr (failed_text t)).

(** The probe outcomes the spec calls failures: the [fetch] was rejected,
    the status is not [ok], or the body does not parse as JSON. *)
Definition probe_failed (p : Promise Response) : bool :=
  match p with
  | Rejects _ => true
  | Resolves r =>
      negb (ok r) || match json r with
                     | Rejects _ => true
                     | Resolves _ => false
                     end
  end.

Ltac run_steps :=
  cbv [bind ret throw return_ lift modify gets await try_catch_finally
       promise_catch run_async or_else fst snd].

(** A probe answer of an authenticated session: status 200 and the body
    [{"username": "alice"}]. *)
Definition alice_session : Response :=
  mkResponse 200 (Resolves (JObj {[ "username" := JStr "alice" ]})).

(** The plain-styled page once the probe has ended without a session: the
    form is shown, both fields still empty. *)
Definition tailwind_ready : Tailwind.World :=
  Tailwind.setCheckingAuth false Tailwind.initial.

(** The component-library page once the probe has ended without a session,
    with both fields filled in. *)
Definition rsuite_filled : RSuite.World :=
  RSuite.setPassword "secret"
    (RSuite.setUsername "alice" (RSuite.setCheckingAuth false RSuite.initial)).

(** The body of a failed submission as the code uses it: the parsed value,
    or the empty object when parsing fails. *)
Definition body_or_empty (r : Response) : JSValue :=
  match json r with
  | Resolves v => v
  | Rejects _ => JObj ∅
  end.

(** The error banner the plain-styled page shows, if any. *)
Definition shown_banner (w : Tailwind.World) : option JSValue :=
  match Tailwind.render w with
  | Tailwind.LoadingIndicator => None
  | Tailwind.LoginRegisterForm f => Tailwind.banner f
  end.

(** Between two events at most one call is suspended, and while one is,
    [loading] is [true]. *)
Definition tailwind_inv (s : Tailwind.Sys) : Prop :=
  match Tailwind.suspended s with
  | [] => True
  | [_] => Tailwind.loading (Tailwind.world s) = true
  | _ => False
  end.

Definition rsuite_inv (s : RSuite.Sys) : Prop :=
  match RSuite.suspended s with
  | [] => True
  | [_] => RSuite.loading (RSuite.world s) = true
  | _ => False
  end.

(** The probe outcomes on which [checkAuth] reaches its redirect: the
    response is [ok], the body parses, reading [username] off it does not
    throw and gives a truthy value. *)
Definition probe_authenticated (p : Promise Response) : bool :=
  match p with
  | Rejects _ => false
  | Resolves r =>
      ok r && match json r with
              | Rejects _ => false
              | Resolves body =>
                  match get_prop body "username" with
                  | Normal v => truthy v
                  | _ => false
                  end
              end
  end.

(** What a settled submission amounts to for the user: success, or a failure
    with the message to show.  [t] is the tab the submission was started on. *)
Inductive SubmitResult : Type :=
| Succeeded
| Failed (msg : JSValue).

Definition submit_result (t : Tab) (o : Promise Response) : SubmitResult :=
  match o with
  | Rejects _ => Failed (JStr network_error_text)
  | Resolves r =>
      if submit_succeeded r then Succeeded
      else match get_prop (body_or_empty r) "detail",
                 get_prop (body_or_empty r) "message" with
           | Normal d, Normal m => Failed (pick_message d m t)
           | _, _ => Failed (JStr network_error_text)
           end
  end.

(** The shape of a submission request: a POST with credentials included to
    one of the two authentication endpoints, carrying a username and a
    password. *)
Definition submission_shaped (req : Request) : Prop :=
  method req = "POST" /\
  credentials req = "include" /\
  (url req = "/api/v1/auth/login" \/ url req = "/api/v1/auth/register") /\
  exists name pass, payload req = Some (name, pass).

(** The same, with neither field empty. *)
Definition filled_submission (req : Request) : Prop :=
  method req = "POST" /\
  credentials req = "include" /\
  (url req = "/api/v1/auth/login" \/ url req = "/api/v1/auth/register") /\
  exists name pass, payload req = Some (name, pass) /\ name <> "" /\ pass <> "".

(** Every navigation started, and every navigation a pending timer will
    start, goes to [/home]. *)
Definition tailwind_home_only (s : Tailwind.Sys) : Prop :=
  Forall (fun target => target = "/home")
         (Tailwind.navigations (Tailwind.world s)).

Definition rsuite_home_only (s : RSuite.Sys) : Prop :=
  Forall (fun target => target = "/home")
         (RSuite.navigations (RSuite.world s)) /\
  Forall (fun timer : Z * string => snd timer = "/home")
         (RSuite.timers (RSuite.world s)).

(** The click on the tab button of [t] in the plain-styled page. *)
Definition tailwind_tab_click (t : Tab) : Tailwind.UiEvent :=
  match t with
  | login => Tailwind.ClickLoginTab
  | register => Tailwind.ClickRegisterTab
  end.

(** The three user actions that call [handleSubmit]. *)
Definition tailwind_submit_event (e : Tailwind.UiEvent) : Prop :=
  e = Tailwind.ClickSubmit \/ e = Tailwind.EnterInUsername \/
  e = Tailwind.EnterInPassword.

Definition rsuite_submit_event (e : RSuite.UiEvent) : Prop :=
  e = RSuite.ClickSubmit \/ e = RSuite.EnterInUsername \/
  e = RSuite.EnterInPassword.

(** While a call of the plain-styled page is suspended the form is shown,
    [loading] holds and no error is set. *)
Definition tailwind_in_flight_inv (s : Tailwind.Sys) : Prop :=
  match Tailwind.suspended s with
  | [] => True
  | [_] => Tailwind.loading (Tailwind.world s) = true /\
           Tailwind.checkingAuth (Tailwind.world s) = false /\
           Tailwind.error (Tailwind.world s) = JStr ""
  | _ => False
  end.

(** What React draws for a value used as a JSX child: a string as that
    text, a number as its decimal text (kept as the number here), nothing
    for [true], [false], [null] and [undefined], the children of an array
    one after the other; on a plain object it throws ("Objects are not valid
    as a React child"), which is [None]. *)
Inductive Piece : Type :=
| TextPiece (s : string)
| NumberPiece (n : Q).

Fixpoint react_child (v : JSValue) : option (list Piece) :=
  match v with
  | JUndefined | JNull | JBool _ => Some []
  | JNum n => Some [NumberPiece n]
  | JStr s => Some [TextPiece s]
  | JArr l =>
      (fix children (l : list JSValue) : option (list Piece) :=
         match l with
         | [] => Some []
         | x :: rest =>
             match react_child x, children rest with
             | Some a, Some b => Some (a ++ b)%list
             | _, _ => None
             end
         end) l
  | JObj _ => None
  end.

(** The error banner of the plain-styled page once React has drawn what
    [App] returned: no banner, a banner with the drawn content of the child,
    or a throw while drawing the child (the source has no error boundary, so
    the page is then unmounted). *)
Inductive Painted : Type :=
| NoBanner
| BannerWith (pieces : list Piece)
| ChildThrows.

Definition painted_banner (w : Tailwind.World) : Painted :=
  match shown_banner w with
  | None => NoBanner
  | Some child =>
      match react_child child with
      | Some pieces => BannerWith pieces
      | None => ChildThrows
      end
  end.

(** The submit [Button] as the component-library page configures it: it is
    given [loading={loading}] and no [disabled], and a button that is not
    disabled calls its [onClick] when it is activated, whatever [loading]
    is. *)
Definition forwarding_button : bool -> bool := fun _ => true.

(** * Properties *)

(** ** Values *)

Lemma truthy_nonempty_string (s : string) : s <> "" -> truthy (JStr s) = true.
Proof.
  intros Hs. simpl. apply negb_true_iff, String.eqb_neq. exact Hs.
Qed.

Lemma str_falsy_true (s : string) : str_falsy s = true <-> s = "".
Proof. unfold str_falsy. apply String.eqb_eq. Qed.

Lemma str_falsy_false (s : string) : str_falsy s = false <-> s <> "".
Proof. unfold str_falsy. apply String.eqb_neq. Qed.

Lemma failed_text_login : failed_text login = "Login failed".
Proof. reflexivity. Qed.

Lemma failed_text_register : failed_text register = "Registration failed".
Proof. reflexivity. Qed.

Lemma truthy_failed_text (t : Tab) : truthy (JStr (failed_text t)) = true.
Proof. destruct t; reflexivity. Qed.

Lemma pick_message_truthy (d m : JSValue) (t : Tab) :
  truthy (pick_message d m t) = true.
Proof.
  unfold pick_message, js_or.
  destruct (truthy d) eqn:Hd.
  - now rewrite Hd.
  - destruct (truthy m) eqn:Hm.
    + now rewrite Hm.
    + apply truthy_failed_text.
Qed.

(** Reading [detail] then [message] off a body that is neither [null] nor
    [undefined] never throws, and yields [pick_message]. *)
Lemma or_else_message {W : Type} (data d m : JSValue) (t : Tab) (w : W) :
  get_prop data "detail" = Normal d ->
  get_prop data "message" = Normal m ->
  or_else (or_else (lift (get_prop data "detail"))
                   (lift (get_prop data "message")))
          (ret (JStr (failed_text t))) w
  = (Normal (pick_message d m t), w).
Proof.
  intros Hd Hm. unfold or_else, bind, lift, ret, pick_message, js_or.
  rewrite Hd.
  destruct (truthy d) eqn:Ed.
  - rewrite Ed. reflexivity.
  - rewrite Hm. destruct (truthy m) eqn:Em; rewrite ?Em; reflexivity.
Qed.

(** ** Status classification *)

Lemma status_in_2xx_range (s : Z) :
  status_in_2xx s = (200 <=? s) && (s <=? 299).
Proof.
  unfold status_in_2xx.
  pose proof (Z.div_mod s 100 ltac:(lia)) as Hdm.
  pose proof (Z.mod_pos_bound s 100 ltac:(lia)) as Hb.
  destruct (Z.eqb_spec (s / 100) 2) as [E | E];
    destruct (Z.leb_spec 200 s); destruct (Z.leb_spec s 299);
    simpl; try reflexivity; exfalso; lia.
Qed.

(** C3: the success test of [handleSubmit], [response.ok ||
    response.status === 201], classifies every response exactly as the
    predicate "the status is in the 2xx range" does, and the [201] disjunct
    never changes the outcome of [response.ok] alone. *)
Theorem submit_succeeded_iff_2xx (r : Response) :
  submit_succeeded r = status_in_2xx (status r) /\
  submit_succeeded r = ok r.
Proof.
  assert (H : submit_succeeded r = ok r).
  { unfold submit_succeeded, ok.
    destruct (Z.eqb_spec (status r) 201) as [E | E].
    - rewrite E. reflexivity.
    - apply orb_false_r. }
  split; [ | exact H ].
  rewrite H. unfold ok. symmetry. apply status_in_2xx_range.
Qed.

(** ** The session probe *)

Lemma tailwind_checkAuth_truthy (w : Tailwind.World) (r : Response)
    (body name : JSValue) :
  ok r = true -> json r = Resolves body ->
  get_prop body "username" = Normal name -> truthy name = true ->
  Tailwind.checkAuth (Resolves r) w
  = (Return, Tailwind.setCheckingAuth false
               (Tailwind.navigate "/home" (Tailwind.issue whoami_request w))).
Proof.
  intros Hok Hjson Hget Htr.
  unfold Tailwind.checkAuth, Tailwind.checkAuth_resume. run_steps.
  rewrite Hok, Hjson, Hget, Htr. reflexivity.
Qed.

Lemma rsuite_checkAuth_truthy (w : RSuite.World) (r : Response)
    (body name : JSValue) :
  ok r = true -> json r = Resolves body ->
  get_prop body "username" = Normal name -> truthy name = true ->
  RSuite.checkAuth (Resolves r) w
  = (Return, RSuite.setCheckingAuth false
               (RSuite.navigate "/home" (RSuite.issue whoami_request w))).
Proof.
  intros Hok Hjson Hget Htr.
  unfold RSuite.checkAuth, RSuite.checkAuth_resume. run_steps.
  rewrite Hok, Hjson, Hget, Htr. reflexivity.
Qed.

Lemma tailwind_checkAuth_failed (w : Tailwind.World) (p : Promise Response) :
  probe_failed p = true ->
  Tailwind.checkAuth p w
  = (Normal tt, Tailwind.setCheckingAuth false (Tailwind.issue whoami_request w)).
Proof.
  intros Hf.
  unfold Tailwind.checkAuth, Tailwind.checkAuth_resume. run_steps.
  destruct p as [r | e]; [ | reflexivity ].
  simpl in Hf. destruct (ok r); [ | reflexivity ].
  destruct (json r); [ discriminate Hf | reflexivity ].
Qed.

Lemma rsuite_checkAuth_failed (w : RSuite.World) (p : Promise Response) :
  probe_failed p = true ->
  RSuite.checkAuth p w
  = (Normal tt, RSuite.setCheckingAuth false (RSuite.issue whoami_request w)).
Proof.
  intros Hf.
  unfold RSuite.checkAuth, RSuite.checkAuth_resume. run_steps.
  destruct p as [r | e]; [ | reflexivity ].
  simpl in Hf. destruct (ok r); [ | reflexivity ].
  destruct (json r); [ discriminate Hf | reflexivity ].
Qed.

(** C1, as the spec states it, fails on the code: on a 2xx probe response
    with a non-empty [username], [checkAuth] does start the navigation to
    [/home], but its [finally] block still runs [setCheckingAuth(false)],
    and with that state the component returns the form, not the loading
    indicator.  Shown on the answer [alice_session] at mount, in both
    variants. *)
Lemma checkAuth_authenticated_form_rendered :
  ok alice_session = true /\
  get_prop (JObj {[ "username" := JStr "alice" ]}) "username"
    = Normal (JStr "alice") /\
  Tailwind.render (snd (Tailwind.checkAuth (Resolves alice_session) Tailwind.initial))
    = Tailwind.LoginRegisterForm
        (Tailwind.mkFormView login None false false "Login") /\
  RSuite.render (snd (RSuite.checkAuth (Resolves alice_session) RSuite.initial))
    = RSuite.LoginRegisterForm (RSuite.mkFormView login false false "Login").
Proof. repeat split; vm_compute; reflexivity. Qed.

(** C1 (amended): for every probe response that is [ok] and whose body has a
    non-empty string as [username], [checkAuth] assigns [/home] to
    [window.location.href], ends by its [return;], and its [finally] block
    ends the checking state all the same: from then on the component
    returns the form instead of the loading indicator, until the navigation
    replaces the page. *)
Theorem checkAuth_authenticated_redirects
    (r : Response) (body : JSValue) (s : string) :
  ok r = true ->
  json r = Resolves body ->
  get_prop body "username" = Normal (JStr s) ->
  s <> "" ->
  (forall w : Tailwind.World,
     let w' := snd (Tailwind.checkAuth (Resolves r) w) in
     fst (Tailwind.checkAuth (Resolves r) w) = Return /\
     Tailwind.navigations w' = (Tailwind.navigations w ++ ["/home"])%list /\
     Tailwind.checkingAuth w' = false /\
     exists f, Tailwind.render w' = Tailwind.LoginRegisterForm f) /\
  (forall w : RSuite.World,
     let w' := snd (RSuite.checkAuth (Resolves r) w) in
     fst (RSuite.checkAuth (Resolves r) w) = Return /\
     RSuite.navigations w' = (RSuite.navigations w ++ ["/home"])%list /\
     RSuite.checkingAuth w' = false /\
     exists f, RSuite.render w' = RSuite.LoginRegisterForm f).
Proof.
  intros Hok Hjson Hget Hs.
  pose proof (truthy_nonempty_string s Hs) as Htr.
  split; intros w.
  - rewrite (tailwind_checkAuth_truthy w r body (JStr s) Hok Hjson Hget Htr).
    simpl. repeat split. eexists. reflexivity.
  - rewrite (rsuite_checkAuth_truthy w r body (JStr s) Hok Hjson Hget Htr).
    simpl. repeat split. eexists. reflexivity.
Qed.

Lemma checkAuth_authenticated_redirects_witness :
  Tailwind.navigations
    (snd (Tailwind.checkAuth (Resolves alice_session) Tailwind.initial))
  = ["/home"].
Proof.
  assert (Hne : "alice" <> "") by discriminate.
  destruct (checkAuth_authenticated_redirects alice_session
              (JObj {[ "username" := JStr "alice" ]}) "alice"
              eq_refl eq_refl eq_refl Hne) as [Ht _].
  destruct (Ht Tailwind.initial) as (_ & Hnav & _).
  exact Hnav.
Defined.

(** C2: for every probe outcome that is a failure (the [fetch] rejected, a
    status that is not 2xx, or a body that is not JSON), [checkAuth] ends
    normally, so its promise is fulfilled and the error is swallowed; it
    starts no navigation, leaves every other state cell as it was, ends the
    checking state, and the component then returns the form. *)
Theorem checkAuth_failure_shows_form (p : Promise Response) :
  probe_failed p = true ->
  (forall w : Tailwind.World,
     run_async (Tailwind.checkAuth p) w
     = (Resolves tt,
        Tailwind.setCheckingAuth false (Tailwind.issue whoami_request w)) /\
     Tailwind.checkingAuth (snd (Tailwind.checkAuth p w)) = false /\
     exists f, Tailwind.render (snd (Tailwind.checkAuth p w))
               = Tailwind.LoginRegisterForm f) /\
  (forall w : RSuite.World,
     run_async (RSuite.checkAuth p) w
     = (Resolves tt,
        RSuite.setCheckingAuth false (RSuite.issue whoami_request w)) /\
     RSuite.checkingAuth (snd (RSuite.checkAuth p w)) = false /\
     exists f, RSuite.render (snd (RSuite.checkAuth p w))
               = RSuite.LoginRegisterForm f).
Proof.
  intros Hf. split; intros w.
  - unfold run_async. rewrite (tailwind_checkAuth_failed w p Hf).
    simpl. repeat split. eexists. reflexivity.
  - unfold run_async. rewrite (rsuite_checkAuth_failed w p Hf).
    simpl. repeat split. eexists. reflexivity.
Qed.

Lemma checkAuth_failure_shows_form_witness :
  Tailwind.checkingAuth
    (snd (Tailwind.checkAuth (Resolves (mkResponse 401 (Rejects SyntaxError)))
            Tailwind.initial))
  = false.
Proof.
  destruct (checkAuth_failure_shows_form
              (Resolves (mkResponse 401 (Rejects SyntaxError))) eq_refl)
    as [Ht _].
  destruct (Ht Tailwind.initial) as (_ & Hc & _).
  exact Hc.
Defined.

(** ** Submission: what each path of [handleSubmit] does *)

(** Reading a property either throws whatever the name, or never does. *)
Lemma get_prop_cases (data : JSValue) :
  (forall k, get_prop data k = Throw TypeError) \/
  (forall k, exists v, get_prop data k = Normal v).
Proof.
  destruct data; simpl; auto; right; intros k; eexists; reflexivity.
Qed.

(** The state [handleSubmit] resumes in, and the tab it closed over. *)
Lemma tailwind_handleSubmit_unfold (o : Promise Response) (w : Tailwind.World) :
  Tailwind.handleSubmit o w
  = Tailwind.handleSubmit_resume (Tailwind.activeTab w) o
      (Tailwind.issue
         (submit_request (Tailwind.activeTab w) (Tailwind.username w)
                         (Tailwind.password w))
         (Tailwind.setLoading true (Tailwind.setError (JStr "") w))).
Proof. reflexivity. Qed.

Lemma tailwind_resume_success (t : Tab) (r : Response) (w : Tailwind.World) :
  submit_succeeded r = true ->
  Tailwind.handleSubmit_resume t (Resolves r) w
  = (Normal tt, Tailwind.setLoading false (Tailwind.navigate "/home" w)).
Proof.
  intros H. unfold Tailwind.handleSubmit_resume. run_steps.
  rewrite H. reflexivity.
Qed.

Lemma tailwind_resume_message (t : Tab) (r : Response) (data d m : JSValue)
    (w : Tailwind.World) :
  submit_succeeded r = false ->
  promise_catch (json r) (JObj ∅) = Resolves data ->
  get_prop data "detail" = Normal d ->
  get_prop data "message" = Normal m ->
  Tailwind.handleSubmit_resume t (Resolves r) w
  = (Normal tt,
     Tailwind.setLoading false (Tailwind.setError (pick_message d m t) w)).
Proof.
  intros Hs Hj Hd Hm. unfold Tailwind.handleSubmit_resume.
  pose proof (or_else_message data d m t w Hd Hm) as E.
  cbv [try_catch_finally bind await ret throw modify] in E |- *.
  rewrite Hs, Hj. cbv beta iota.
  rewrite E. reflexivity.
Qed.

Lemma tailwind_resume_throwing_body (t : Tab) (r : Response) (data : JSValue)
    (w : Tailwind.World) :
  submit_succeeded r = false ->
  json r = Resolves data ->
  get_prop data "detail" = Throw TypeError ->
  Tailwind.handleSubmit_resume t (Resolves r) w
  = (Normal tt,
     Tailwind.setLoading false
       (Tailwind.setError (JStr network_error_text) w)).
Proof.
  intros Hs Hj Hd. unfold Tailwind.handleSubmit_resume. run_steps.
  rewrite Hs, Hj, Hd. reflexivity.
Qed.

Lemma tailwind_resume_rejected (t : Tab) (e : JSError) (w : Tailwind.World) :
  Tailwind.handleSubmit_resume t (Rejects e) w
  = (Normal tt,
     Tailwind.setLoading false
       (Tailwind.setError (JStr network_error_text) w)).
Proof. reflexivity. Qed.

(** Whatever the outcome, the rest of [handleSubmit] ends normally and its
    last state change is [setLoading(false)]. *)
Lemma tailwind_resume_finally (t : Tab) (o : Promise Response)
    (w : Tailwind.World) :
  exists w2, Tailwind.handleSubmit_resume t o w
             = (Normal tt, Tailwind.setLoading false w2) /\
             Tailwind.fetches w2 = Tailwind.fetches w.
Proof.
  destruct o as [r | e].
  2: { eexists; split; [ apply tailwind_resume_rejected | reflexivity ]. }
  destruct (submit_succeeded r) eqn:Hs.
  { eexists; split; [ apply tailwind_resume_success; exact Hs | reflexivity ]. }
  destruct (json r) as [data | e] eqn:Hj.
  - destruct (get_prop_cases data) as [Hthrow | Hok].
    + eexists; split;
        [ eapply tailwind_resume_throwing_body; eauto | reflexivity ].
    + destruct (Hok "detail") as [d Hd]. destruct (Hok "message") as [m Hm].
      eexists; split; [ eapply tailwind_resume_message; eauto | reflexivity ].
      rewrite Hj. reflexivity.
  - eexists; split;
      [ eapply (tailwind_resume_message t r (JObj ∅)); eauto;
        rewrite ?Hj; reflexivity
      | reflexivity ].
Qed.

(** The same for the component-library variant. *)
Lemma rsuite_call_empty (w : RSuite.World) :
  RSuite.username w = "" \/ RSuite.password w = "" ->
  RSuite.handleSubmit_call w = (Return, RSuite.push RSuite.fill_in_warning w).
Proof.
  intros H. unfold RSuite.handleSubmit_call. run_steps.
  assert (E : str_falsy (RSuite.username w) || str_falsy (RSuite.password w) = true).
  { apply orb_true_iff. destruct H as [H | H]; [ left | right ];
      apply str_falsy_true; exact H. }
  rewrite E. reflexivity.
Qed.

Lemma rsuite_call_filled (w : RSuite.World) :
  RSuite.username w <> "" -> RSuite.password w <> "" ->
  RSuite.handleSubmit_call w
  = (Normal (RSuite.activeTab w),
     RSuite.issue
       (submit_request (RSuite.activeTab w) (RSuite.username w)
                       (RSuite.password w))
       (RSuite.setLoading true w)).
Proof.
  intros Hu Hp. unfold RSuite.handleSubmit_call. run_steps.
  apply str_falsy_false in Hu, Hp. rewrite Hu, Hp. reflexivity.
Qed.

Lemma rsuite_handleSubmit_empty (o : Promise Response) (w : RSuite.World) :
  RSuite.username w = "" \/ RSuite.password w = "" ->
  RSuite.handleSubmit o w = (Return, RSuite.push RSuite.fill_in_warning w).
Proof.
  intros H. unfold RSuite.handleSubmit, bind.
  rewrite (rsuite_call_empty w H). reflexivity.
Qed.

Lemma rsuite_handleSubmit_filled (o : Promise Response) (w : RSuite.World) :
  RSuite.username w <> "" -> RSuite.password w <> "" ->
  RSuite.handleSubmit o w
  = RSuite.handleSubmit_resume (RSuite.activeTab w) o
      (RSuite.issue
         (submit_request (RSuite.activeTab w) (RSuite.username w)
                         (RSuite.password w))
         (RSuite.setLoading true w)).
Proof.
  intros Hu Hp. unfold RSuite.handleSubmit, bind.
  rewrite (rsuite_call_filled w Hu Hp). reflexivity.
Qed.

Lemma rsuite_resume_success (t : Tab) (r : Response) (w : RSuite.World) :
  submit_succeeded r = true ->
  RSuite.handleSubmit_resume t (Resolves r) w
  = (Normal tt,
     RSuite.setLoading false
       (RSuite.setTimeout 500 "/home"
          (RSuite.push
             (RSuite.mkToast RSuite.success
                (JStr (if is_login t then "Login successful!"
                       else "Registration successful!")) 2000) w))).
Proof.
  intros H. unfold RSuite.handleSubmit_resume. run_steps.
  rewrite H. reflexivity.
Qed.

Lemma rsuite_resume_message (t : Tab) (r : Response) (data d m : JSValue)
    (w : RSuite.World) :
  submit_succeeded r = false ->
  promise_catch (json r) (JObj ∅) = Resolves data ->
  get_prop data "detail" = Normal d ->
  get_prop data "message" = Normal m ->
  RSuite.handleSubmit_resume t (Resolves r) w
  = (Normal tt,
     RSuite.setLoading false
       (RSuite.push (RSuite.mkToast RSuite.error (pick_message d m t) 4000) w)).
Proof.
  intros Hs Hj Hd Hm. unfold RSuite.handleSubmit_resume.
  pose proof (or_else_message data d m t w Hd Hm) as E.
  cbv [try_catch_finally bind await ret throw modify] in E |- *.
  rewrite Hs, Hj. cbv beta iota.
  rewrite E. reflexivity.
Qed.

Lemma rsuite_resume_throwing_body (t : Tab) (r : Response) (data : JSValue)
    (w : RSuite.World) :
  submit_succeeded r = false ->
  json r = Resolves data ->
  get_prop data "detail" = Throw TypeError ->
  RSuite.handleSubmit_resume t (Resolves r) w
  = (Normal tt,
     RSuite.setLoading false
       (RSuite.push
          (RSuite.mkToast RSuite.error (JStr network_error_text) 4000) w)).
Proof.
  intros Hs Hj Hd. unfold RSuite.handleSubmit_resume. run_steps.
  rewrite Hs, Hj, Hd. reflexivity.
Qed.

Lemma rsuite_resume_rejected (t : Tab) (e : JSError) (w : RSuite.World) :
  RSuite.handleSubmit_resume t (Rejects e) w
  = (Normal tt,
     RSuite.setLoading false
       (RSuite.push
          (RSuite.mkToast RSuite.error (JStr network_error_text) 4000) w)).
Proof. reflexivity. Qed.

Lemma rsuite_resume_finally (t : Tab) (o : Promise Response)
    (w : RSuite.World) :
  exists w2, RSuite.handleSubmit_resume t o w
             = (Normal tt, RSuite.setLoading false w2) /\
             RSuite.fetches w2 = RSuite.fetches w.
Proof.
  destruct o as [r | e].
  2: { eexists; split; [ apply rsuite_resume_rejected | reflexivity ]. }
  destruct (submit_succeeded r) eqn:Hs.
  { eexists; split; [ apply rsuite_resume_success; exact Hs | reflexivity ]. }
  destruct (json r) as [data | e] eqn:Hj.
  - destruct (get_prop_cases data) as [Hthrow | Hok].
    + eexists; split;
        [ eapply rsuite_resume_throwing_body; eauto | reflexivity ].
    + destruct (Hok "detail") as [d Hd]. destruct (Hok "message") as [m Hm].
      eexists; split; [ eapply rsuite_resume_message; eauto | reflexivity ].
      rewrite Hj. reflexivity.
  - eexists; split;
      [ eapply (rsuite_resume_message t r (JObj ∅)); eauto;
        rewrite ?Hj; reflexivity
      | reflexivity ].
Qed.

(** ** Submission: the message shown *)

(** For a rejected submission whose body is not the value [null], the
    message is [detail], else [message], else the fallback of the tab the
    submission was started on. *)
Lemma tailwind_failure_message (r : Response) (d m : JSValue)
    (w : Tailwind.World) :
  submit_succeeded r = false ->
  get_prop (body_or_empty r) "detail" = Normal d ->
  get_prop (body_or_empty r) "message" = Normal m ->
  Tailwind.handleSubmit (Resolves r) w
  = (Normal tt,
     Tailwind.setLoading false
       (Tailwind.setError (pick_message d m (Tailwind.activeTab w))
          (Tailwind.issue
             (submit_request (Tailwind.activeTab w) (Tailwind.username w)
                             (Tailwind.password w))
             (Tailwind.setLoading true (Tailwind.setError (JStr "") w))))).
Proof.
  intros Hs Hd Hm. rewrite tailwind_handleSubmit_unfold.
  apply (tailwind_resume_message _ r (body_or_empty r) d m); auto.
  unfold body_or_empty. destruct (json r); reflexivity.
Qed.

Lemma rsuite_failure_message (r : Response) (d m : JSValue)
    (w : RSuite.World) :
  RSuite.username w <> "" -> RSuite.password w <> "" ->
  submit_succeeded r = false ->
  get_prop (body_or_empty r) "detail" = Normal d ->
  get_prop (body_or_empty r) "message" = Normal m ->
  RSuite.handleSubmit (Resolves r) w
  = (Normal tt,
     RSuite.setLoading false
       (RSuite.push
          (RSuite.mkToast RSuite.error
             (pick_message d m (RSuite.activeTab w)) 4000)
          (RSuite.issue
             (submit_request (RSuite.activeTab w) (RSuite.username w)
                             (RSuite.password w))
             (RSuite.setLoading true w)))).
Proof.
  intros Hu Hp Hs Hd Hm. rewrite (rsuite_handleSubmit_filled _ w Hu Hp).
  apply (rsuite_resume_message _ r (body_or_empty r) d m); auto.
  unfold body_or_empty. destruct (json r); reflexivity.
Qed.

(** The spec's two examples: status 400 with [{"detail": "bad credentials"}],
    and status 500 with a body that does not parse, both on the login tab. *)
Example login_400_detail :
  Tailwind.error
    (snd (Tailwind.handleSubmit
            (Resolves (mkResponse 400
               (Resolves (JObj {[ "detail" := JStr "bad credentials" ]}))))
            tailwind_ready))
  = JStr "bad credentials".
Proof. vm_compute. reflexivity. Qed.

Example login_500_unparseable :
  Tailwind.error
    (snd (Tailwind.handleSubmit
            (Resolves (mkResponse 500 (Rejects SyntaxError)))
            tailwind_ready))
  = JStr "Login failed".
Proof. vm_compute. reflexivity. Qed.

(** C4 does not hold for every non-2xx response: when the body parses to the
    JSON value [null], [.catch(() => ({}))] does not apply (parsing
    succeeded), reading [data.detail] throws a [TypeError], and the outer
    [catch] reports it as a network error.  On the login tab with status
    400 and body [null], the message is "Network error. Please try again."
    in both variants, where the claim has "Login failed". *)
Theorem null_body_reported_as_network_error :
  submit_succeeded (mkResponse 400 (Resolves JNull)) = false /\
  Tailwind.activeTab tailwind_ready = login /\
  Tailwind.error
    (snd (Tailwind.handleSubmit (Resolves (mkResponse 400 (Resolves JNull)))
            tailwind_ready))
  = JStr "Network error. Please try again." /\
  RSuite.toasts
    (snd (RSuite.handleSubmit (Resolves (mkResponse 400 (Resolves JNull)))
            rsuite_filled))
  = [RSuite.mkToast RSuite.error (JStr "Network error. Please try again.") 4000].
Proof. repeat split; vm_compute; reflexivity. Qed.

(** C5: when the [fetch] of a submission is rejected, the message shown is
    exactly "Network error. Please try again." (the [error] state of the
    plain variant, an error notification in the other one) and [loading] is
    [false] when the attempt ends. *)
Theorem network_error_message (e : JSError) :
  (forall w : Tailwind.World,
     let w' := snd (Tailwind.handleSubmit (Rejects e) w) in
     Tailwind.error w' = JStr "Network error. Please try again." /\
     Tailwind.loading w' = false) /\
  (forall w : RSuite.World,
     let w' := snd (RSuite.handleSubmit (Rejects e) w) in
     RSuite.fetches w' <> RSuite.fetches w ->
     RSuite.toasts w'
     = (RSuite.toasts w ++
        [RSuite.mkToast RSuite.error
           (JStr "Network error. Please try again.") 4000])%list /\
     RSuite.loading w' = false).
Proof.
  split; intros w; [ split; reflexivity | ].
  intros w' Hissued. subst w'.
  destruct (String.eqb_spec (RSuite.username w) "") as [Hu | Hu].
  { exfalso. apply Hissued.
    rewrite (rsuite_handleSubmit_empty _ w (or_introl Hu)). reflexivity. }
  destruct (String.eqb_spec (RSuite.password w) "") as [Hp | Hp].
  { exfalso. apply Hissued.
    rewrite (rsuite_handleSubmit_empty _ w (or_intror Hp)). reflexivity. }
  rewrite (rsuite_handleSubmit_filled _ w Hu Hp), rsuite_resume_rejected.
  split; reflexivity.
Qed.

Lemma network_error_message_witness :
  RSuite.toasts (snd (RSuite.handleSubmit (Rejects NetworkError) rsuite_filled))
  = [RSuite.mkToast RSuite.error (JStr "Network error. Please try again.") 4000]
  /\ Tailwind.error (snd (Tailwind.handleSubmit (Rejects NetworkError)
                            tailwind_ready))
     = JStr "Network error. Please try again.".
Proof.
  destruct (network_error_message NetworkError) as [Ht Hr].
  split.
  - apply (Hr rsuite_filled). vm_compute. discriminate.
  - apply (Ht tailwind_ready).
Defined.

(** C10: the message is chosen by truthiness.  When the body is an object
    whose [detail] is present but falsy, the message is [message] if that
    is truthy and the fallback of the active tab otherwise; in particular a
    falsy [message] (or none) gives the fallback. *)
Theorem falsy_detail_falls_through
    (r : Response) (o : gmap string JSValue) (d : JSValue) :
  submit_succeeded r = false ->
  json r = Resolves (JObj o) ->
  o !! "detail" = Some d ->
  truthy d = false ->
  let m := default JUndefined (o !! "message") in
  (forall w : Tailwind.World,
     Tailwind.error (snd (Tailwind.handleSubmit (Resolves r) w))
     = js_or m (JStr (failed_text (Tailwind.activeTab w)))) /\
  (forall w : RSuite.World,
     RSuite.username w <> "" -> RSuite.password w <> "" ->
     RSuite.toasts (snd (RSuite.handleSubmit (Resolves r) w))
     = (RSuite.toasts w ++
        [RSuite.mkToast RSuite.error
           (js_or m (JStr (failed_text (RSuite.activeTab w)))) 4000])%list) /\
  (forall t : Tab,
     truthy m = false -> js_or m (JStr (failed_text t)) = JStr (failed_text t)) /\
  (forall t : Tab, truthy m = true -> js_or m (JStr (failed_text t)) = m).
Proof.
  intros Hs Hj Hd Htr m.
  assert (Hgd : get_prop (body_or_empty r) "detail" = Normal d).
  { unfold body_or_empty. rewrite Hj. simpl. rewrite Hd. reflexivity. }
  assert (Hgm : get_prop (body_or_empty r) "message" = Normal m).
  { unfold body_or_empty. rewrite Hj. reflexivity. }
  assert (Hpick : forall t, pick_message d m t = js_or m (JStr (failed_text t))).
  { intros t. unfold pick_message. unfold js_or at 2. rewrite Htr. reflexivity. }
  repeat split.
  - intros w. rewrite (tailwind_failure_message r d m w Hs Hgd Hgm).
    simpl. apply Hpick.
  - intros w Hu Hp. rewrite (rsuite_failure_message r d m w Hu Hp Hs Hgd Hgm).
    simpl. rewrite Hpick. reflexivity.
  - intros t Hm. unfold js_or. rewrite Hm. reflexivity.
  - intros t Hm. unfold js_or. rewrite Hm. reflexivity.
Qed.

Lemma falsy_detail_falls_through_witness :
  Tailwind.error
    (snd (Tailwind.handleSubmit
            (Resolves (mkResponse 400
               (Resolves (JObj {[ "detail" := JStr "";
                                  "message" := JStr "taken" ]}))))
            tailwind_ready))
  = JStr "taken".
Proof.
  assert (Hd : ({[ "detail" := JStr ""; "message" := JStr "taken" ]}
                  : gmap string JSValue) !! "detail" = Some (JStr ""))
    by (vm_compute; reflexivity).
  destruct (falsy_detail_falls_through
              (mkResponse 400
                 (Resolves (JObj {[ "detail" := JStr "";
                                    "message" := JStr "taken" ]})))
              {[ "detail" := JStr ""; "message" := JStr "taken" ]}
              (JStr "") eq_refl eq_refl Hd eq_refl) as [Ht _].
  rewrite (Ht tailwind_ready). vm_compute. reflexivity.
Defined.

(** ** Submission: the guard and the in-flight flag *)

Lemma tailwind_handleSubmit_fetches (o : Promise Response) (w : Tailwind.World) :
  Tailwind.fetches (snd (Tailwind.handleSubmit o w))
  = (Tailwind.fetches w ++
     [submit_request (Tailwind.activeTab w) (Tailwind.username w)
                     (Tailwind.password w)])%list.
Proof.
  rewrite tailwind_handleSubmit_unfold.
  destruct (tailwind_resume_finally (Tailwind.activeTab w) o
              (Tailwind.issue
                 (submit_request (Tailwind.activeTab w) (Tailwind.username w)
                                 (Tailwind.password w))
                 (Tailwind.setLoading true (Tailwind.setError (JStr "") w))))
    as (w2 & -> & Hf).
  simpl. rewrite Hf. reflexivity.
Qed.

(** C8: in the component-library variant a submission with an empty
    username or an empty password ends at the guard's [return;]: no request
    is issued, the warning "Please fill in all fields" is pushed, and
    [loading] is never set (nothing but the toaster changes).  In the
    plain-styled variant every call of [handleSubmit] issues the request
    with the fields as they are, empty or not. *)
Theorem empty_field_guard (o : Promise Response) :
  (forall w : RSuite.World,
     RSuite.username w = "" \/ RSuite.password w = "" ->
     RSuite.handleSubmit_call w = (Return, RSuite.push RSuite.fill_in_warning w) /\
     RSuite.handleSubmit o w = (Return, RSuite.push RSuite.fill_in_warning w) /\
     RSuite.fetches (snd (RSuite.handleSubmit o w)) = RSuite.fetches w /\
     RSuite.loading (snd (RSuite.handleSubmit o w)) = RSuite.loading w /\
     RSuite.toasts (snd (RSuite.handleSubmit o w))
     = (RSuite.toasts w ++
        [RSuite.mkToast RSuite.warning (JStr "Please fill in all fields") 3000])%list) /\
  (forall w : Tailwind.World,
     Tailwind.fetches (snd (Tailwind.handleSubmit o w))
     = (Tailwind.fetches w ++
        [mkRequest (API_BASE ++ endpoint (Tailwind.activeTab w)) "POST" "include"
           (Some (Tailwind.username w, Tailwind.password w))])%list).
Proof.
  split.
  - intros w H.
    rewrite (rsuite_handleSubmit_empty o w H), (rsuite_call_empty w H).
    repeat split.
  - intros w. apply tailwind_handleSubmit_fetches.
Qed.

Lemma empty_field_guard_witness :
  RSuite.fetches
    (snd (RSuite.handleSubmit (Resolves (mkResponse 200 (Resolves JNull)))
            (RSuite.setUsername "" rsuite_filled)))
  = [] /\
  Tailwind.fetches
    (snd (Tailwind.handleSubmit (Resolves (mkResponse 200 (Resolves JNull)))
            tailwind_ready))
  = [mkRequest "/api/v1/auth/login" "POST" "include" (Some ("", ""))].
Proof.
  destruct (empty_field_guard (Resolves (mkResponse 200 (Resolves JNull))))
    as [Hr Ht].
  split.
  - destruct (Hr (RSuite.setUsername "" rsuite_filled)
                (or_introl eq_refl)) as (_ & _ & Hf & _).
    exact Hf.
  - exact (Ht tailwind_ready).
Defined.

(** C9: every call of [handleSubmit] that issues a request ends normally
    with [loading] set to [false], whatever the outcome of the request: a
    2xx response (where the redirect to [/home] is started or scheduled), any
    other response, or a rejected [fetch]. *)
Theorem handleSubmit_ends_not_loading (o : Promise Response) :
  (forall w : Tailwind.World,
     fst (run_async (Tailwind.handleSubmit o) w) = Resolves tt /\
     Tailwind.loading (snd (Tailwind.handleSubmit o w)) = false) /\
  (forall w : RSuite.World,
     RSuite.fetches (snd (RSuite.handleSubmit o w)) <> RSuite.fetches w ->
     fst (run_async (RSuite.handleSubmit o) w) = Resolves tt /\
     RSuite.loading (snd (RSuite.handleSubmit o w)) = false).
Proof.
  split; intros w.
  - unfold run_async. rewrite tailwind_handleSubmit_unfold.
    destruct (tailwind_resume_finally (Tailwind.activeTab w) o
                (Tailwind.issue
                   (submit_request (Tailwind.activeTab w) (Tailwind.username w)
                                   (Tailwind.password w))
                   (Tailwind.setLoading true (Tailwind.setError (JStr "") w))))
      as (w2 & -> & _).
    split; reflexivity.
  - intros Hissued.
    destruct (String.eqb_spec (RSuite.username w) "") as [Hu | Hu].
    { exfalso. apply Hissued.
      rewrite (rsuite_handleSubmit_empty _ w (or_introl Hu)). reflexivity. }
    destruct (String.eqb_spec (RSuite.password w) "") as [Hp | Hp].
    { exfalso. apply Hissued.
      rewrite (rsuite_handleSubmit_empty _ w (or_intror Hp)). reflexivity. }
    unfold run_async. rewrite (rsuite_handleSubmit_filled _ w Hu Hp).
    destruct (rsuite_resume_finally (RSuite.activeTab w) o
                (RSuite.issue
                   (submit_request (RSuite.activeTab w) (RSuite.username w)
                                   (RSuite.password w))
                   (RSuite.setLoading true w)))
      as (w2 & -> & _).
    split; reflexivity.
Qed.

Lemma handleSubmit_ends_not_loading_witness :
  RSuite.loading
    (snd (RSuite.handleSubmit (Resolves (mkResponse 201 (Rejects SyntaxError)))
            rsuite_filled))
  = false /\
  RSuite.timers
    (snd (RSuite.handleSubmit (Resolves (mkResponse 201 (Rejects SyntaxError)))
            rsuite_filled))
  = [(500, "/home")].
Proof.
  split; [ | vm_compute; reflexivity ].
  destruct (handleSubmit_ends_not_loading
              (Resolves (mkResponse 201 (Rejects SyntaxError)))) as [_ Hr].
  apply (Hr rsuite_filled). vm_compute. discriminate.
Defined.

(** ** Switching tabs *)

(** C6, as the spec states it, fails for the component-library variant: its
    [Nav] calls [setActiveTab] and nothing else, so a notification that is
    on display stays.  After a login rejected with "bad credentials", the
    error notification is still there once the register tab is selected. *)
Lemma rsuite_tab_switch_keeps_message :
  RSuite.toasts
    (snd (RSuite.selectTab register
            (snd (RSuite.handleSubmit
                    (Resolves (mkResponse 401
                       (Resolves (JObj {[ "detail" := JStr "bad credentials" ]}))))
                    rsuite_filled))))
  = [RSuite.mkToast RSuite.error (JStr "bad credentials") 4000].
Proof. vm_compute. reflexivity. Qed.

(** C6 (amended): in the plain-styled variant every click on a tab selects
    it and resets [error] to the empty string, so no banner is shown; in
    the component-library variant selecting a tab changes [activeTab] only
    and leaves the notifications as they are.  In both, selecting the same
    tab a second time changes nothing. *)
Theorem tab_switch_effect (t : Tab) :
  (forall w : Tailwind.World,
     let w' := snd (Tailwind.clickTab t w) in
     Tailwind.activeTab w' = t /\
     Tailwind.error w' = JStr "" /\
     shown_banner w' = None /\
     snd (Tailwind.clickTab t w') = w') /\
  (forall w : RSuite.World,
     let w' := snd (RSuite.selectTab t w) in
     w' = RSuite.setActiveTab t w /\
     RSuite.toasts w' = RSuite.toasts w /\
     snd (RSuite.selectTab t w') = w').
Proof.
  split; intros w; simpl.
  - repeat split. unfold shown_banner, Tailwind.render. simpl.
    destruct (Tailwind.checkingAuth w); reflexivity.
  - repeat split.
Qed.

(** ** One submission at a time *)

Lemma tailwind_inv_length (s : Tailwind.Sys) :
  tailwind_inv s -> (length (Tailwind.suspended s) <= 1)%nat.
Proof.
  unfold tailwind_inv. destruct (Tailwind.suspended s) as [ | t [ | t' l ] ];
    simpl; intros H; first [ lia | destruct H ].
Qed.

Lemma rsuite_inv_length (s : RSuite.Sys) :
  rsuite_inv s -> (length (RSuite.suspended s) <= 1)%nat.
Proof.
  unfold rsuite_inv. destruct (RSuite.suspended s) as [ | t [ | t' l ] ];
    simpl; intros H; first [ lia | destruct H ].
Qed.

Lemma tailwind_start_submit_inv (s : Tailwind.Sys) :
  Tailwind.loading (Tailwind.world s) = false ->
  tailwind_inv s -> tailwind_inv (Tailwind.start_submit s).
Proof.
  destruct s as [w susp]. unfold tailwind_inv. simpl. intros Hl Hinv.
  destruct susp as [ | t [ | t' l ] ]; simpl in *.
  - reflexivity.
  - congruence.
  - destruct Hinv.
Qed.

Lemma tailwind_dispatch_inv (e : Tailwind.UiEvent) (s : Tailwind.Sys) :
  tailwind_inv s -> tailwind_inv (Tailwind.dispatch e s).
Proof.
  intros Hinv. unfold Tailwind.dispatch, Tailwind.render.
  destruct (Tailwind.checkingAuth (Tailwind.world s)); [ exact Hinv | ].
  cbn [Tailwind.inputs_disabled Tailwind.submit_disabled].
  destruct e;
    try (destruct (Tailwind.loading (Tailwind.world s)) eqn:Hl;
         [ exact Hinv | ]);
    try (apply tailwind_start_submit_inv; assumption);
    destruct s as [w susp]; unfold tailwind_inv in *; simpl in *;
    destruct susp as [ | t [ | t' l ] ]; simpl in *; auto; congruence.
Qed.

Lemma tailwind_step_inv (ev : Tailwind.Event) (s : Tailwind.Sys) :
  tailwind_inv s -> tailwind_inv (Tailwind.step ev s).
Proof.
  intros Hinv. destruct ev as [e | i o]; simpl.
  - apply tailwind_dispatch_inv. exact Hinv.
  - destruct (Tailwind.suspended s !! i) as [tab | ] eqn:Hi; [ | exact Hinv ].
    unfold tailwind_inv in *.
    destruct (Tailwind.suspended s) as [ | t [ | t' l ] ]; simpl in *.
    + discriminate Hi.
    + destruct i; simpl in *; [ exact I | discriminate Hi ].
    + destruct Hinv.
Qed.

Lemma tailwind_run_inv (evs : list Tailwind.Event) (s : Tailwind.Sys) :
  tailwind_inv s -> tailwind_inv (Tailwind.run evs s).
Proof.
  revert s. induction evs as [ | ev evs IH ]; intros s Hinv; simpl.
  - exact Hinv.
  - apply IH, tailwind_step_inv, Hinv.
Qed.

Section RSuiteButton.

Variable button_clickable : bool -> bool.
Hypothesis loading_button_ignores_click : button_clickable true = false.

Lemma rsuite_start_submit_inv (s : RSuite.Sys) :
  RSuite.loading (RSuite.world s) = false ->
  rsuite_inv s -> rsuite_inv (RSuite.start_submit s).
Proof.
  destruct s as [w susp]. unfold rsuite_inv, RSuite.start_submit. simpl.
  intros Hl Hinv.
  destruct (String.eqb_spec (RSuite.username w) "") as [Hu | Hu].
  { rewrite (rsuite_call_empty w (or_introl Hu)). exact Hinv. }
  destruct (String.eqb_spec (RSuite.password w) "") as [Hp | Hp].
  { rewrite (rsuite_call_empty w (or_intror Hp)). exact Hinv. }
  rewrite (rsuite_call_filled w Hu Hp). simpl.
  destruct susp as [ | t [ | t' l ] ]; simpl in *.
  - reflexivity.
  - congruence.
  - destruct Hinv.
Qed.

Lemma rsuite_dispatch_inv (e : RSuite.UiEvent) (s : RSuite.Sys) :
  rsuite_inv s -> rsuite_inv (RSuite.dispatch button_clickable e s).
Proof.
  intros Hinv. unfold RSuite.dispatch, RSuite.render.
  destruct (RSuite.checkingAuth (RSuite.world s)); [ exact Hinv | ].
  cbn [RSuite.inputs_disabled RSuite.submit_loading].
  destruct e;
    try (destruct (RSuite.loading (RSuite.world s)) eqn:Hl;
         [ first [ exact Hinv
                 | rewrite loading_button_ignores_click; exact Hinv ] | ]);
    try (destruct (button_clickable false); [ | exact Hinv ]);
    try (apply rsuite_start_submit_inv; assumption);
    destruct s as [w susp]; unfold rsuite_inv in *; simpl in *;
    destruct susp as [ | t' [ | t'' l ] ]; simpl in *; auto; congruence.
Qed.

Lemma rsuite_step_inv (ev : RSuite.Event) (s : RSuite.Sys) :
  rsuite_inv s -> rsuite_inv (RSuite.step button_clickable ev s).
Proof.
  intros Hinv. destruct ev as [e | i o | i]; simpl.
  - apply rsuite_dispatch_inv. exact Hinv.
  - destruct (RSuite.suspended s !! i) as [tab | ] eqn:Hi; [ | exact Hinv ].
    unfold rsuite_inv in *.
    destruct (RSuite.suspended s) as [ | t [ | t' l ] ]; simpl in *.
    + discriminate Hi.
    + destruct i; simpl in *; [ exact I | discriminate Hi ].
    + destruct Hinv.
  - destruct (RSuite.timers (RSuite.world s) !! i) as [[delay target] | ];
      [ | exact Hinv ].
    unfold rsuite_inv in *. simpl.
    destruct (RSuite.suspended s) as [ | t [ | t' l ] ]; simpl in *; auto.
Qed.

Lemma rsuite_run_inv (evs : list RSuite.Event) (s : RSuite.Sys) :
  rsuite_inv s -> rsuite_inv (RSuite.run button_clickable evs s).
Proof.
  revert s. induction evs as [ | ev evs IH ]; intros s Hinv; simpl.
  - exact Hinv.
  - apply IH, rsuite_step_inv, Hinv.
Qed.

End RSuiteButton.

(** The plain-styled page keeps at most one submission in flight: its
    submit button and both inputs are disabled while [loading], so whatever
    the user does and however the requests settle, no second call of
    [handleSubmit] starts before the first has settled, and a click or Enter
    key while [loading] changes nothing. *)
Theorem tailwind_single_submission_in_flight :
  (forall (w : Tailwind.World) (evs : list Tailwind.Event),
     (length (Tailwind.suspended (Tailwind.run evs (Tailwind.idle w))) <= 1)%nat) /\
  (forall (s : Tailwind.Sys) (e : Tailwind.UiEvent),
     Tailwind.loading (Tailwind.world s) = true ->
     e = Tailwind.ClickSubmit \/ e = Tailwind.EnterInUsername \/
     e = Tailwind.EnterInPassword ->
     Tailwind.dispatch e s = s).
Proof.
  split.
  - intros w evs. apply tailwind_inv_length, tailwind_run_inv. exact I.
  - intros s e Hl He. unfold Tailwind.dispatch, Tailwind.render.
    destruct (Tailwind.checkingAuth (Tailwind.world s)); [ reflexivity | ].
    cbn [Tailwind.inputs_disabled Tailwind.submit_disabled].
    rewrite Hl. destruct He as [-> | [-> | ->]]; reflexivity.
Qed.

(** The component-library page would keep it too if its button ignored
    activation while [loading], as a button with [disabled={loading}]
    does: the inputs are disabled while [loading], so the button is the
    only way to [handleSubmit] then. *)
Lemma rsuite_single_submission_if_button_blocks
    (button_clickable : bool -> bool) (w : RSuite.World)
    (evs : list RSuite.Event) :
  button_clickable true = false ->
  (length (RSuite.suspended
             (RSuite.run button_clickable evs (RSuite.idle w))) <= 1)%nat.
Proof.
  intros Hbc. apply rsuite_inv_length, (rsuite_run_inv button_clickable Hbc).
  exact I.
Qed.

(** With such a button, of two clicks in a row the second does nothing. *)
Example double_click_one_request :
  let s := RSuite.run negb [RSuite.Ui RSuite.ClickSubmit; RSuite.Ui RSuite.ClickSubmit]
             (RSuite.idle rsuite_filled) in
  length (RSuite.suspended s) = 1%nat /\
  length (RSuite.fetches (RSuite.world s)) = 1%nat.
Proof. vm_compute. split; reflexivity. Qed.

(** C7 fails on the component-library page.  Its submit button is given
    [loading={loading}] but not [disabled], and [handleSubmit] does not look
    at [loading]: when the button is activated again while the first
    submission is in flight ([loading] is [true], one call suspended), a
    second call starts and a second POST goes out, so two submissions are
    in flight.  Shown on the page with both fields filled in. *)
Theorem rsuite_second_submission_in_flight :
  let s1 := RSuite.run forwarding_button [RSuite.Ui RSuite.ClickSubmit]
              (RSuite.idle rsuite_filled) in
  let s2 := RSuite.run forwarding_button
              [RSuite.Ui RSuite.ClickSubmit; RSuite.Ui RSuite.ClickSubmit]
              (RSuite.idle rsuite_filled) in
  RSuite.loading (RSuite.world s1) = true /\
  RSuite.suspended s1 = [login] /\
  RSuite.suspended s2 = [login; login] /\
  RSuite.fetches (RSuite.world s2)
  = [mkRequest "/api/v1/auth/login" "POST" "include" (Some ("alice", "secret"));
     mkRequest "/api/v1/auth/login" "POST" "include" (Some ("alice", "secret"))].
Proof. repeat split; vm_compute; reflexivity. Qed.

(** * Further properties of the page *)

(** ** The probe, on every outcome *)

Lemma tailwind_checkAuth_result (p : Promise Response) (w : Tailwind.World) :
  Tailwind.checkAuth p w
  = (if probe_authenticated p then Return else Normal tt,
     Tailwind.setCheckingAuth false
       (if probe_authenticated p
        then Tailwind.navigate "/home" (Tailwind.issue whoami_request w)
        else Tailwind.issue whoami_request w)).
Proof.
  unfold Tailwind.checkAuth, Tailwind.checkAuth_resume, probe_authenticated.
  run_steps.
  destruct p as [r | e]; [ | reflexivity ].
  destruct (ok r); [ | reflexivity ].
  destruct (json r) as [body | e]; [ | reflexivity ].
  destruct (get_prop_cases body) as [Hthrow | Hok].
  - rewrite (Hthrow "username"). reflexivity.
  - destruct (Hok "username") as [v ->]. destruct (truthy v); reflexivity.
Qed.

Lemma rsuite_checkAuth_result (p : Promise Response) (w : RSuite.World) :
  RSuite.checkAuth p w
  = (if probe_authenticated p then Return else Normal tt,
     RSuite.setCheckingAuth false
       (if probe_authenticated p
        then RSuite.navigate "/home" (RSuite.issue whoami_request w)
        else RSuite.issue whoami_request w)).
Proof.
  unfold RSuite.checkAuth, RSuite.checkAuth_resume, probe_authenticated.
  run_steps.
  destruct p as [r | e]; [ | reflexivity ].
  destruct (ok r); [ | reflexivity ].
  destruct (json r) as [body | e]; [ | reflexivity ].
  destruct (get_prop_cases body) as [Hthrow | Hok].
  - rewrite (Hthrow "username"). reflexivity.
  - destruct (Hok "username") as [v ->]. destruct (truthy v); reflexivity.
Qed.

(** X1: whatever the probe's outcome, the promise of [checkAuth] is
    fulfilled (never rejected), exactly one [whoami] request is issued, the
    checking state is ended and nothing else of the component state is
    touched; a navigation is started, to [/home], exactly when the response
    is [ok], its body parses and has a truthy [username].  So a 2xx answer
    with the body [null], [{}] or [{"username": ""}] shows the form. *)
Theorem checkAuth_on_every_outcome (p : Promise Response) :
  (forall w : Tailwind.World,
     run_async (Tailwind.checkAuth p) w
     = (Resolves tt,
        Tailwind.mkWorld
          (Tailwind.activeTab w) (Tailwind.username w) (Tailwind.password w)
          (Tailwind.loading w) (Tailwind.error w) false
          (if probe_authenticated p
           then Tailwind.navigations w ++ ["/home"]
           else Tailwind.navigations w)%list
          (Tailwind.fetches w ++ [whoami_request])%list)) /\
  (forall w : RSuite.World,
     run_async (RSuite.checkAuth p) w
     = (Resolves tt,
        RSuite.mkWorld
          (RSuite.activeTab w) (RSuite.username w) (RSuite.password w)
          (RSuite.loading w) false (RSuite.toasts w) (RSuite.timers w)
          (if probe_authenticated p
           then RSuite.navigations w ++ ["/home"]
           else RSuite.navigations w)%list
          (RSuite.fetches w ++ [whoami_request])%list)).
Proof.
  split; intros w; unfold run_async.
  - rewrite tailwind_checkAuth_result.
    destruct (probe_authenticated p); reflexivity.
  - rewrite rsuite_checkAuth_result.
    destruct (probe_authenticated p); reflexivity.
Qed.

(** The three 2xx answers without a usable [username]. *)
Example probe_2xx_without_username :
  probe_authenticated (Resolves (mkResponse 200 (Resolves JNull))) = false /\
  probe_authenticated (Resolves (mkResponse 200 (Resolves (JObj ∅)))) = false /\
  probe_authenticated
    (Resolves (mkResponse 200 (Resolves (JObj {[ "username" := JStr "" ]}))))
  = false.
Proof. repeat split; vm_compute; reflexivity. Qed.

(** ** A settled submission, on every outcome *)

Lemma promise_catch_body (r : Response) :
  promise_catch (json r) (JObj ∅) = Resolves (body_or_empty r).
Proof. unfold body_or_empty. destruct (json r); reflexivity. Qed.

Lemma body_throws_parsed (r : Response) (k : string) :
  get_prop (body_or_empty r) k = Throw TypeError ->
  json r = Resolves (body_or_empty r).
Proof.
  unfold body_or_empty. destruct (json r) as [v | e]; [ reflexivity | ].
  simpl. discriminate.
Qed.

Lemma tailwind_resume_result (t : Tab) (o : Promise Response)
    (w : Tailwind.World) :
  Tailwind.handleSubmit_resume t o w
  = (Normal tt,
     Tailwind.setLoading false
       match submit_result t o with
       | Succeeded => Tailwind.navigate "/home" w
       | Failed msg => Tailwind.setError msg w
       end).
Proof.
  destruct o as [r | e]; [ | reflexivity ].
  unfold submit_result.
  destruct (submit_succeeded r) eqn:Hs.
  { apply tailwind_resume_success. exact Hs. }
  destruct (get_prop_cases (body_or_empty r)) as [Hthrow | Hok].
  - rewrite (Hthrow "detail").
    apply (tailwind_resume_throwing_body t r (body_or_empty r)); auto.
    apply (body_throws_parsed r "detail"), Hthrow.
  - destruct (Hok "detail") as [d Hd]. destruct (Hok "message") as [m Hm].
    rewrite Hd, Hm.
    apply (tailwind_resume_message t r (body_or_empty r) d m); auto.
    apply promise_catch_body.
Qed.

Lemma rsuite_resume_result (t : Tab) (o : Promise Response)
    (w : RSuite.World) :
  RSuite.handleSubmit_resume t o w
  = (Normal tt,
     RSuite.setLoading false
       match submit_result t o with
       | Succeeded =>
           RSuite.setTimeout 500 "/home"
             (RSuite.push
                (RSuite.mkToast RSuite.success
                   (JStr (if is_login t then "Login successful!"
                          else "Registration successful!")) 2000) w)
       | Failed msg => RSuite.push (RSuite.mkToast RSuite.error msg 4000) w
       end).
Proof.
  destruct o as [r | e]; [ | reflexivity ].
  unfold submit_result.
  destruct (submit_succeeded r) eqn:Hs.
  { apply rsuite_resume_success. exact Hs. }
  destruct (get_prop_cases (body_or_empty r)) as [Hthrow | Hok].
  - rewrite (Hthrow "detail").
    apply (rsuite_resume_throwing_body t r (body_or_empty r)); auto.
    apply (body_throws_parsed r "detail"), Hthrow.
  - destruct (Hok "detail") as [d Hd]. destruct (Hok "message") as [m Hm].
    rewrite Hd, Hm.
    apply (rsuite_resume_message t r (body_or_empty r) d m); auto.
    apply promise_catch_body.
Qed.

Lemma failed_message_truthy (t : Tab) (o : Promise Response) (msg : JSValue) :
  submit_result t o = Failed msg -> truthy msg = true.
Proof.
  unfold submit_result. destruct o as [r | e].
  - destruct (submit_succeeded r); [ discriminate | ].
    destruct (get_prop (body_or_empty r) "detail") as [d | | e];
      try (intros [= <-]; reflexivity).
    destruct (get_prop (body_or_empty r) "message") as [m | | e];
      intros [= <-]; first [ apply pick_message_truthy | reflexivity ].
  - intros [= <-]. reflexivity.
Qed.

Lemma tailwind_handleSubmit_result (o : Promise Response) (w : Tailwind.World) :
  Tailwind.handleSubmit o w
  = (Normal tt,
     Tailwind.setLoading false
       match submit_result (Tailwind.activeTab w) o with
       | Succeeded =>
           Tailwind.navigate "/home"
             (Tailwind.issue
                (submit_request (Tailwind.activeTab w) (Tailwind.username w)
                                (Tailwind.password w))
                (Tailwind.setLoading true (Tailwind.setError (JStr "") w)))
       | Failed msg =>
           Tailwind.setError msg
             (Tailwind.issue
                (submit_request (Tailwind.activeTab w) (Tailwind.username w)
                                (Tailwind.password w))
                (Tailwind.setLoading true (Tailwind.setError (JStr "") w)))
       end).
Proof.
  rewrite tailwind_handleSubmit_unfold, tailwind_resume_result.
  destruct (submit_result (Tailwind.activeTab w) o); reflexivity.
Qed.

Lemma rsuite_fields_cases (w : RSuite.World) :
  (str_falsy (RSuite.username w) || str_falsy (RSuite.password w) = true /\
   (RSuite.username w = "" \/ RSuite.password w = "")) \/
  (str_falsy (RSuite.username w) || str_falsy (RSuite.password w) = false /\
   RSuite.username w <> "" /\ RSuite.password w <> "").
Proof.
  unfold str_falsy.
  destruct (String.eqb_spec (RSuite.username w) "") as [Hu | Hu];
    destruct (String.eqb_spec (RSuite.password w) "") as [Hp | Hp];
    simpl; auto.
Qed.

Lemma rsuite_handleSubmit_result (o : Promise Response) (w : RSuite.World) :
  RSuite.handleSubmit o w
  = if str_falsy (RSuite.username w) || str_falsy (RSuite.password w)
    then (Return, RSuite.push RSuite.fill_in_warning w)
    else
      (Normal tt,
       RSuite.setLoading false
         match submit_result (RSuite.activeTab w) o with
         | Succeeded =>
             RSuite.setTimeout 500 "/home"
               (RSuite.push
                  (RSuite.mkToast RSuite.success
                     (JStr (if is_login (RSuite.activeTab w)
                            then "Login successful!"
                            else "Registration successful!")) 2000)
                  (RSuite.issue
                     (submit_request (RSuite.activeTab w) (RSuite.username w)
                                     (RSuite.password w))
                     (RSuite.setLoading true w)))
         | Failed msg =>
             RSuite.push (RSuite.mkToast RSuite.error msg 4000)
               (RSuite.issue
                  (submit_request (RSuite.activeTab w) (RSuite.username w)
                                  (RSuite.password w))
                  (RSuite.setLoading true w))
         end).
Proof.
  destruct (rsuite_fields_cases w) as [[-> He] | [-> [Hu Hp]]].
  - apply rsuite_handleSubmit_empty. exact He.
  - rewrite (rsuite_handleSubmit_filled o w Hu Hp), rsuite_resume_result.
    destruct (submit_result (RSuite.activeTab w) o); reflexivity.
Qed.

(** X2: on every 2xx answer, whatever its body (it is never read), the
    plain-styled page starts the navigation to [/home] at once, with the
    error cleared.  The component-library page starts none yet: it pushes
    the success notification of the tab and schedules the navigation 500 ms
    later, [loading] already being [false]; when that timer fires the
    navigation to [/home] starts and the timer is gone. *)
Theorem success_redirects_home (r : Response) :
  submit_succeeded r = true ->
  (forall w : Tailwind.World,
     let w' := snd (Tailwind.handleSubmit (Resolves r) w) in
     Tailwind.navigations w' = (Tailwind.navigations w ++ ["/home"])%list /\
     Tailwind.error w' = JStr "" /\
     Tailwind.loading w' = false) /\
  (forall (button_clickable : bool -> bool) (w : RSuite.World)
          (susp : list Tab),
     RSuite.username w <> "" -> RSuite.password w <> "" ->
     let w' := snd (RSuite.handleSubmit (Resolves r) w) in
     let fired := RSuite.step button_clickable
                    (RSuite.TimerFires (length (RSuite.timers w)))
                    (RSuite.mkSys w' susp) in
     RSuite.navigations w' = RSuite.navigations w /\
     RSuite.timers w' = (RSuite.timers w ++ [(500, "/home")])%list /\
     RSuite.toasts w'
     = (RSuite.toasts w ++
        [RSuite.mkToast RSuite.success
           (JStr (if is_login (RSuite.activeTab w) then "Login successful!"
                  else "Registration successful!")) 2000])%list /\
     RSuite.loading w' = false /\
     RSuite.navigations (RSuite.world fired)
     = (RSuite.navigations w ++ ["/home"])%list /\
     RSuite.timers (RSuite.world fired) = RSuite.timers w).
Proof.
  intros Hs. split.
  - intros w. simpl. rewrite tailwind_handleSubmit_result.
    unfold submit_result. rewrite Hs. repeat split.
  - intros bc w susp Hu Hp. simpl.
    rewrite (rsuite_handleSubmit_filled _ w Hu Hp),
            (rsuite_resume_success _ r _ Hs).
    cbn [snd RSuite.step RSuite.world RSuite.timers RSuite.setLoading
         RSuite.setTimeout RSuite.push RSuite.issue RSuite.navigations
         RSuite.toasts RSuite.loading].
    rewrite (list_lookup_middle (RSuite.timers w) [] (500, "/home")
               (length (RSuite.timers w)) eq_refl).
    cbn [RSuite.world RSuite.navigate RSuite.clearTimer RSuite.navigations
         RSuite.timers RSuite.setLoading RSuite.setTimeout RSuite.push
         RSuite.issue].
    rewrite (delete_middle (RSuite.timers w) [] (500, "/home")).
    rewrite app_nil_r. repeat split.
Qed.

Lemma success_redirects_home_witness :
  RSuite.timers
    (snd (RSuite.handleSubmit (Resolves (mkResponse 201 (Rejects SyntaxError)))
            (RSuite.setActiveTab register rsuite_filled)))
  = [(500, "/home")] /\
  Tailwind.navigations
    (snd (Tailwind.handleSubmit (Resolves (mkResponse 201 (Rejects SyntaxError)))
            (Tailwind.setActiveTab register tailwind_ready)))
  = ["/home"].
Proof.
  assert (Hu : "alice" <> "") by discriminate.
  assert (Hp : "secret" <> "") by discriminate.
  destruct (success_redirects_home (mkResponse 201 (Rejects SyntaxError))
              eq_refl) as [Ht Hr].
  split.
  - destruct (Hr negb (RSuite.setActiveTab register rsuite_filled) [] Hu Hp)
      as (_ & Htimers & _).
    exact Htimers.
  - destruct (Ht (Tailwind.setActiveTab register tailwind_ready))
      as (Hnav & _).
    exact Hnav.
Defined.


(** The child [App] hands to the banner element once a submission has
    settled: none after a 2xx answer, the message (always truthy) after
    every other outcome, whatever error was set before. *)
Lemma tailwind_banner_child_after_submission (o : Promise Response)
    (w : Tailwind.World) :
  Tailwind.checkingAuth w = false ->
  shown_banner (snd (Tailwind.handleSubmit o w))
  = match submit_result (Tailwind.activeTab w) o with
    | Succeeded => None
    | Failed msg => Some msg
    end.
Proof.
  intros Hc. rewrite tailwind_handleSubmit_result.
  unfold shown_banner, Tailwind.render.
  destruct (submit_result (Tailwind.activeTab w) o) as [ | msg ] eqn:Hres;
    simpl; rewrite Hc; simpl.
  - reflexivity.
  - rewrite (failed_message_truthy _ _ _ Hres). reflexivity.
Qed.

(** X4: once a submission of the plain-styled page has settled, what is
    drawn as error banner depends on the outcome alone, whatever error was
    shown before: no banner after a 2xx answer; after every other outcome
    the banner with the message as React draws it.  A message that is a
    string is drawn as that text and is never the empty string.  A
    [detail] or [message] taken from the body need not be a string: it is
    drawn by the rules of [react_child], so [true] gives an empty banner
    and an object makes React throw on the child. *)
Theorem tailwind_banner_after_submission (o : Promise Response)
    (w : Tailwind.World) :
  Tailwind.checkingAuth w = false ->
  painted_banner (snd (Tailwind.handleSubmit o w))
  = match submit_result (Tailwind.activeTab w) o with
    | Succeeded => NoBanner
    | Failed msg =>
        match react_child msg with
        | Some pieces => BannerWith pieces
        | None => ChildThrows
        end
    end /\
  (forall text : string,
     submit_result (Tailwind.activeTab w) o = Failed (JStr text) ->
     painted_banner (snd (Tailwind.handleSubmit o w))
     = BannerWith [TextPiece text] /\
     text <> "").
Proof.
  intros Hc.
  assert (Hp : painted_banner (snd (Tailwind.handleSubmit o w))
               = match submit_result (Tailwind.activeTab w) o with
                 | Succeeded => NoBanner
                 | Failed msg =>
                     match react_child msg with
                     | Some pieces => BannerWith pieces
                     | None => ChildThrows
                     end
                 end).
  { unfold painted_banner.
    rewrite (tailwind_banner_child_after_submission o w Hc).
    destruct (submit_result (Tailwind.activeTab w) o); reflexivity. }
  split; [ exact Hp | ].
  intros text Hres. rewrite Hp, Hres. split; [ reflexivity | ].
  pose proof (failed_message_truthy _ _ _ Hres) as Htr. simpl in Htr.
  intros ->. discriminate Htr.
Qed.

Lemma tailwind_banner_after_submission_witness :
  painted_banner
    (snd (Tailwind.handleSubmit (Resolves (mkResponse 500 (Rejects SyntaxError)))
            (Tailwind.setError (JStr "old message") tailwind_ready)))
  = BannerWith [TextPiece "Login failed"].
Proof.
  destruct (tailwind_banner_after_submission
              (Resolves (mkResponse 500 (Rejects SyntaxError)))
              (Tailwind.setError (JStr "old message") tailwind_ready) eq_refl)
    as [_ Htext].
  apply (Htext "Login failed"). vm_compute. reflexivity.
Defined.

(** What the banner becomes for the messages a body can carry that are not
    strings: status 422 with [detail] an object, an array holding an object,
    an array of strings, and [true]. *)
Example banner_of_unusual_details :
  painted_banner
    (snd (Tailwind.handleSubmit
            (Resolves (mkResponse 422
               (Resolves (JObj {[ "detail" := JObj {[ "msg" := JStr "bad" ]} ]}))))
            tailwind_ready))
  = ChildThrows /\
  painted_banner
    (snd (Tailwind.handleSubmit
            (Resolves (mkResponse 422
               (Resolves (JObj {[ "detail" :=
                                    JArr [JObj {[ "msg" := JStr "bad" ]}] ]}))))
            tailwind_ready))
  = ChildThrows /\
  painted_banner
    (snd (Tailwind.handleSubmit
            (Resolves (mkResponse 422
               (Resolves (JObj {[ "detail" := JArr [JStr "too"; JStr "short"] ]}))))
            tailwind_ready))
  = BannerWith [TextPiece "too"; TextPiece "short"] /\
  painted_banner
    (snd (Tailwind.handleSubmit
            (Resolves (mkResponse 422
               (Resolves (JObj {[ "detail" := JBool true ]}))))
            tailwind_ready))
  = BannerWith [].
Proof. repeat split; vm_compute; reflexivity. Qed.

(** X5: a submission never changes what the user typed or the tab: after
    [handleSubmit], on every outcome, [username], [password], [activeTab]
    and [checkingAuth] are what they were (the fields are not cleared after
    a failure, nor after a success). *)
Theorem handleSubmit_keeps_fields (o : Promise Response) :
  (forall w : Tailwind.World,
     let w' := snd (Tailwind.handleSubmit o w) in
     Tailwind.username w' = Tailwind.username w /\
     Tailwind.password w' = Tailwind.password w /\
     Tailwind.activeTab w' = Tailwind.activeTab w /\
     Tailwind.checkingAuth w' = Tailwind.checkingAuth w) /\
  (forall w : RSuite.World,
     let w' := snd (RSuite.handleSubmit o w) in
     RSuite.username w' = RSuite.username w /\
     RSuite.password w' = RSuite.password w /\
     RSuite.activeTab w' = RSuite.activeTab w /\
     RSuite.checkingAuth w' = RSuite.checkingAuth w).
Proof.
  split; intros w; simpl.
  - rewrite tailwind_handleSubmit_result.
    destruct (submit_result (Tailwind.activeTab w) o); repeat split.
  - rewrite rsuite_handleSubmit_result.
    destruct (str_falsy (RSuite.username w) || str_falsy (RSuite.password w));
      [ repeat split | ].
    destruct (submit_result (RSuite.activeTab w) o); repeat split.
Qed.

(** ** The page over sequences of events *)

Lemma submit_request_shaped (t : Tab) (name pass : string) :
  submission_shaped (submit_request t name pass).
Proof.
  unfold submission_shaped. destruct t; simpl; repeat split; eauto.
Qed.

Lemma submit_request_filled (t : Tab) (name pass : string) :
  name <> "" -> pass <> "" -> filled_submission (submit_request t name pass).
Proof.
  intros Hn Hp. unfold filled_submission.
  destruct t; simpl; repeat split; eauto.
Qed.

Lemma tailwind_resume_fetches (t : Tab) (o : Promise Response)
    (w : Tailwind.World) :
  Tailwind.fetches (snd (Tailwind.handleSubmit_resume t o w))
  = Tailwind.fetches w.
Proof.
  rewrite tailwind_resume_result. destruct (submit_result t o); reflexivity.
Qed.

Lemma rsuite_resume_fetches (t : Tab) (o : Promise Response)
    (w : RSuite.World) :
  RSuite.fetches (snd (RSuite.handleSubmit_resume t o w)) = RSuite.fetches w.
Proof.
  rewrite rsuite_resume_result. destruct (submit_result t o); reflexivity.
Qed.

Lemma tailwind_step_requests (ev : Tailwind.Event) (s : Tailwind.Sys) :
  exists added : list Request,
    Tailwind.fetches (Tailwind.world (Tailwind.step ev s))
    = (Tailwind.fetches (Tailwind.world s) ++ added)%list /\
    Forall submission_shaped added.
Proof.
  assert (Hsame : forall s' : Tailwind.Sys,
             Tailwind.fetches (Tailwind.world s')
             = Tailwind.fetches (Tailwind.world s) ->
             exists added : list Request,
               Tailwind.fetches (Tailwind.world s')
               = (Tailwind.fetches (Tailwind.world s) ++ added)%list /\
               Forall submission_shaped added).
  { intros s' E. exists []. rewrite E, app_nil_r. split; constructor. }
  destruct ev as [e | i o]; simpl.
  - unfold Tailwind.dispatch, Tailwind.render.
    destruct (Tailwind.checkingAuth (Tailwind.world s)); [ apply Hsame; reflexivity | ].
    cbn [Tailwind.inputs_disabled Tailwind.submit_disabled].
    destruct e;
      try (destruct (Tailwind.loading (Tailwind.world s)));
      try (apply Hsame; reflexivity);
      (exists [submit_request (Tailwind.activeTab (Tailwind.world s))
                 (Tailwind.username (Tailwind.world s))
                 (Tailwind.password (Tailwind.world s))];
       split;
       [ reflexivity
       | apply Forall_cons; split;
         [ apply submit_request_shaped | constructor ] ]).
  - destruct (Tailwind.suspended s !! i) as [tab | ]; [ | apply Hsame; reflexivity ].
    apply Hsame. simpl. apply tailwind_resume_fetches.
Qed.

Lemma rsuite_start_submit_requests (s : RSuite.Sys) :
  exists added : list Request,
    RSuite.fetches (RSuite.world (RSuite.start_submit s))
    = (RSuite.fetches (RSuite.world s) ++ added)%list /\
    Forall filled_submission added.
Proof.
  unfold RSuite.start_submit.
  destruct (rsuite_fields_cases (RSuite.world s)) as [[_ He] | [_ [Hu Hp]]].
  - rewrite (rsuite_call_empty _ He). exists []. simpl.
    rewrite app_nil_r. split; constructor.
  - rewrite (rsuite_call_filled _ Hu Hp).
    exists [submit_request (RSuite.activeTab (RSuite.world s))
              (RSuite.username (RSuite.world s))
              (RSuite.password (RSuite.world s))].
    split; [ reflexivity | ].
    apply Forall_cons; split;
      [ apply submit_request_filled; assumption | constructor ].
Qed.

Lemma rsuite_step_requests (button_clickable : bool -> bool)
    (ev : RSuite.Event) (s : RSuite.Sys) :
  exists added : list Request,
    RSuite.fetches (RSuite.world (RSuite.step button_clickable ev s))
    = (RSuite.fetches (RSuite.world s) ++ added)%list /\
    Forall filled_submission added.
Proof.
  assert (Hsame : forall s' : RSuite.Sys,
             RSuite.fetches (RSuite.world s')
             = RSuite.fetches (RSuite.world s) ->
             exists added : list Request,
               RSuite.fetches (RSuite.world s')
               = (RSuite.fetches (RSuite.world s) ++ added)%list /\
               Forall filled_submission added).
  { intros s' E. exists []. rewrite E, app_nil_r. split; constructor. }
  destruct ev as [e | i o | i]; simpl.
  - unfold RSuite.dispatch, RSuite.render.
    destruct (RSuite.checkingAuth (RSuite.world s)); [ apply Hsame; reflexivity | ].
    cbn [RSuite.inputs_disabled RSuite.submit_loading].
    destruct e;
      try (destruct (RSuite.loading (RSuite.world s)));
      try (destruct (button_clickable _));
      try (apply Hsame; reflexivity);
      apply rsuite_start_submit_requests.
  - destruct (RSuite.suspended s !! i) as [tab | ]; [ | apply Hsame; reflexivity ].
    apply Hsame. simpl. apply rsuite_resume_fetches.
  - destruct (RSuite.timers (RSuite.world s) !! i) as [[delay target] | ];
      apply Hsame; reflexivity.
Qed.

(** X6: whatever the user does and however the requests settle, the only
    requests the page adds are submissions: POSTs with credentials included
    to [/api/v1/auth/login] or [/api/v1/auth/register] carrying a username
    and a password; and the component-library page never sends one with an
    empty username or an empty password. *)
Theorem only_submissions_are_sent :
  (forall (evs : list Tailwind.Event) (s : Tailwind.Sys),
     exists added : list Request,
       Tailwind.fetches (Tailwind.world (Tailwind.run evs s))
       = (Tailwind.fetches (Tailwind.world s) ++ added)%list /\
       Forall submission_shaped added) /\
  (forall (button_clickable : bool -> bool) (evs : list RSuite.Event)
          (s : RSuite.Sys),
     exists added : list Request,
       RSuite.fetches (RSuite.world (RSuite.run button_clickable evs s))
       = (RSuite.fetches (RSuite.world s) ++ added)%list /\
       Forall filled_submission added).
Proof.
  split.
  - induction evs as [ | ev evs IH ]; intros s; simpl.
    + exists []. rewrite app_nil_r. split; constructor.
    + destruct (tailwind_step_requests ev s) as (a1 & E1 & F1).
      destruct (IH (Tailwind.step ev s)) as (a2 & E2 & F2).
      exists (a1 ++ a2)%list. split.
      * rewrite E2, E1, app_assoc. reflexivity.
      * apply Forall_app. split; assumption.
  - intros bc. induction evs as [ | ev evs IH ]; intros s; simpl.
    + exists []. rewrite app_nil_r. split; constructor.
    + destruct (rsuite_step_requests bc ev s) as (a1 & E1 & F1).
      destruct (IH (RSuite.step bc ev s)) as (a2 & E2 & F2).
      exists (a1 ++ a2)%list. split.
      * rewrite E2, E1, app_assoc. reflexivity.
      * apply Forall_app. split; assumption.
Qed.

Lemma tailwind_step_home_only (ev : Tailwind.Event) (s : Tailwind.Sys) :
  tailwind_home_only s -> tailwind_home_only (Tailwind.step ev s).
Proof.
  unfold tailwind_home_only. intros H. destruct ev as [e | i o]; simpl.
  - unfold Tailwind.dispatch, Tailwind.render.
    destruct (Tailwind.checkingAuth (Tailwind.world s)); [ exact H | ].
    cbn [Tailwind.inputs_disabled Tailwind.submit_disabled].
    destruct e; try (destruct (Tailwind.loading (Tailwind.world s)));
      exact H.
  - destruct (Tailwind.suspended s !! i) as [tab | ]; [ | exact H ].
    simpl. rewrite tailwind_resume_result.
    destruct (submit_result tab o); simpl; [ | exact H ].
    apply Forall_app. split; [ exact H | ]. repeat constructor.
Qed.

Lemma rsuite_start_submit_home_only (s : RSuite.Sys) :
  rsuite_home_only s -> rsuite_home_only (RSuite.start_submit s).
Proof.
  unfold rsuite_home_only, RSuite.start_submit. intros H.
  destruct (rsuite_fields_cases (RSuite.world s)) as [[_ He] | [_ [Hu Hp]]].
  - rewrite (rsuite_call_empty _ He). exact H.
  - rewrite (rsuite_call_filled _ Hu Hp). exact H.
Qed.

Lemma rsuite_step_home_only (button_clickable : bool -> bool)
    (ev : RSuite.Event) (s : RSuite.Sys) :
  rsuite_home_only s ->
  rsuite_home_only (RSuite.step button_clickable ev s).
Proof.
  intros H. destruct ev as [e | i o | i]; simpl.
  - unfold RSuite.dispatch, RSuite.render.
    destruct (RSuite.checkingAuth (RSuite.world s)); [ exact H | ].
    cbn [RSuite.inputs_disabled RSuite.submit_loading].
    destruct e; try (destruct (RSuite.loading (RSuite.world s)));
      try (destruct (button_clickable _));
      first [ exact H | apply rsuite_start_submit_home_only; exact H ].
  - destruct (RSuite.suspended s !! i) as [tab | ]; [ | exact H ].
    unfold rsuite_home_only in *. simpl. rewrite rsuite_resume_result.
    destruct H as [Hn Ht].
    destruct (submit_result tab o); simpl; [ | split; assumption ].
    split; [ exact Hn | ].
    apply Forall_app. split; [ exact Ht | ]. repeat constructor.
  - destruct (RSuite.timers (RSuite.world s) !! i) as [[delay target] | ] eqn:Hi;
      [ | exact H ].
    unfold rsuite_home_only in *. simpl. destruct H as [Hn Ht]. split.
    + apply Forall_app. split; [ exact Hn | ].
      pose proof (proj1 (Forall_lookup _ _) Ht i (delay, target) Hi) as Htarget.
      simpl in Htarget. subst target. repeat constructor.
    + apply Forall_delete. exact Ht.
Qed.

(** X7: the page never navigates anywhere but to [/home]: over every
    sequence of user events, settling requests and (component-library
    variant) firing timers, every navigation started goes to [/home], and
    so does every navigation still scheduled. *)
Theorem navigates_only_home :
  (forall (evs : list Tailwind.Event) (s : Tailwind.Sys),
     tailwind_home_only s -> tailwind_home_only (Tailwind.run evs s)) /\
  (forall (button_clickable : bool -> bool) (evs : list RSuite.Event)
          (s : RSuite.Sys),
     rsuite_home_only s ->
     rsuite_home_only (RSuite.run button_clickable evs s)).
Proof.
  split.
  - induction evs as [ | ev evs IH ]; intros s H; simpl.
    + exact H.
    + apply IH, tailwind_step_home_only, H.
  - intros bc. induction evs as [ | ev evs IH ]; intros s H; simpl.
    + exact H.
    + apply IH, rsuite_step_home_only, H.
Qed.

Lemma navigates_only_home_witness :
  rsuite_home_only
    (RSuite.run negb
       [RSuite.Ui RSuite.ClickSubmit;
        RSuite.FetchSettles 0 (Resolves (mkResponse 200 (Resolves JNull)));
        RSuite.TimerFires 0]
       (RSuite.idle rsuite_filled)) /\
  tailwind_home_only
    (Tailwind.run
       [Tailwind.Ui Tailwind.ClickSubmit;
        Tailwind.FetchSettles 0 (Resolves (mkResponse 200 (Resolves JNull)))]
       (Tailwind.idle tailwind_ready)).
Proof.
  destruct navigates_only_home as [Ht Hr]. split.
  - apply Hr. split; constructor.
  - apply Ht. constructor.
Defined.

(** The navigations of the two runs above: one each, to [/home]. *)
Example one_navigation_after_success :
  RSuite.navigations
    (RSuite.world
       (RSuite.run negb
          [RSuite.Ui RSuite.ClickSubmit;
           RSuite.FetchSettles 0 (Resolves (mkResponse 200 (Resolves JNull)));
           RSuite.TimerFires 0]
          (RSuite.idle rsuite_filled)))
  = ["/home"].
Proof. vm_compute. reflexivity. Qed.

Lemma tailwind_dispatch_checking (e : Tailwind.UiEvent) (s : Tailwind.Sys) :
  Tailwind.checkingAuth (Tailwind.world s) = true -> Tailwind.dispatch e s = s.
Proof.
  intros H. unfold Tailwind.dispatch, Tailwind.render. rewrite H. reflexivity.
Qed.

Lemma rsuite_dispatch_checking (button_clickable : bool -> bool)
    (e : RSuite.UiEvent) (s : RSuite.Sys) :
  RSuite.checkingAuth (RSuite.world s) = true ->
  RSuite.dispatch button_clickable e s = s.
Proof.
  intros H. unfold RSuite.dispatch, RSuite.render. rewrite H. reflexivity.
Qed.

(** X8: until the probe has ended the page is inert: while [checkingAuth]
    holds only the loading indicator is there, so no sequence of user
    actions changes the state or issues a request. *)
Theorem no_interaction_while_checking :
  (forall (es : list Tailwind.UiEvent) (s : Tailwind.Sys),
     Tailwind.checkingAuth (Tailwind.world s) = true ->
     Tailwind.run (map Tailwind.Ui es) s = s) /\
  (forall (button_clickable : bool -> bool) (es : list RSuite.UiEvent)
          (s : RSuite.Sys),
     RSuite.checkingAuth (RSuite.world s) = true ->
     RSuite.run button_clickable (map RSuite.Ui es) s = s).
Proof.
  split.
  - induction es as [ | e es IH ]; intros s H; simpl; [ reflexivity | ].
    rewrite (tailwind_dispatch_checking e s H). apply IH, H.
  - intros bc. induction es as [ | e es IH ]; intros s H; simpl;
      [ reflexivity | ].
    rewrite (rsuite_dispatch_checking bc e s H). apply IH, H.
Qed.

Lemma no_interaction_while_checking_witness :
  Tailwind.run
    (map Tailwind.Ui
       [Tailwind.ChangeUsername "alice"; Tailwind.ClickSubmit;
        Tailwind.ClickRegisterTab])
    (Tailwind.idle Tailwind.initial)
  = Tailwind.idle Tailwind.initial.
Proof.
  destruct no_interaction_while_checking as [Ht _].
  apply Ht. reflexivity.
Defined.

(** ** Single steps of a page that shows the form *)

Lemma tailwind_submit_step (e : Tailwind.UiEvent) (w : Tailwind.World)
    (susp : list Tab) :
  Tailwind.checkingAuth w = false -> Tailwind.loading w = false ->
  tailwind_submit_event e ->
  Tailwind.dispatch e (Tailwind.mkSys w susp)
  = Tailwind.mkSys
      (Tailwind.issue
         (submit_request (Tailwind.activeTab w) (Tailwind.username w)
                         (Tailwind.password w))
         (Tailwind.setLoading true (Tailwind.setError (JStr "") w)))
      (susp ++ [Tailwind.activeTab w]).
Proof.
  intros Hc Hl He. unfold Tailwind.dispatch, Tailwind.render. simpl.
  rewrite Hc. simpl. rewrite Hl.
  destruct He as [-> | [-> | ->]]; reflexivity.
Qed.

Lemma tailwind_tab_step (t : Tab) (w : Tailwind.World) (susp : list Tab) :
  Tailwind.checkingAuth w = false ->
  Tailwind.dispatch (tailwind_tab_click t) (Tailwind.mkSys w susp)
  = Tailwind.mkSys (Tailwind.setError (JStr "") (Tailwind.setActiveTab t w))
                   susp.
Proof.
  intros Hc. unfold Tailwind.dispatch, Tailwind.render. simpl.
  rewrite Hc. destruct t; reflexivity.
Qed.

Lemma tailwind_settle_step (t : Tab) (o : Promise Response)
    (w : Tailwind.World) :
  Tailwind.step (Tailwind.FetchSettles 0 o) (Tailwind.mkSys w [t])
  = Tailwind.mkSys
      (Tailwind.setLoading false
         match submit_result t o with
         | Succeeded => Tailwind.navigate "/home" w
         | Failed msg => Tailwind.setError msg w
         end)
      [].
Proof. simpl. rewrite tailwind_resume_result. reflexivity. Qed.

Lemma rsuite_submit_step (button_clickable : bool -> bool)
    (e : RSuite.UiEvent) (w : RSuite.World) (susp : list Tab) :
  button_clickable false = true ->
  RSuite.checkingAuth w = false -> RSuite.loading w = false ->
  rsuite_submit_event e ->
  RSuite.dispatch button_clickable e (RSuite.mkSys w susp)
  = RSuite.start_submit (RSuite.mkSys w susp).
Proof.
  intros Hb Hc Hl He. unfold RSuite.dispatch, RSuite.render. simpl.
  rewrite Hc. simpl. rewrite Hl, Hb.
  destruct He as [-> | [-> | ->]]; reflexivity.
Qed.

Lemma rsuite_start_submit_filled (w : RSuite.World) (susp : list Tab) :
  RSuite.username w <> "" -> RSuite.password w <> "" ->
  RSuite.start_submit (RSuite.mkSys w susp)
  = RSuite.mkSys
      (RSuite.issue
         (submit_request (RSuite.activeTab w) (RSuite.username w)
                         (RSuite.password w))
         (RSuite.setLoading true w))
      (susp ++ [RSuite.activeTab w]).
Proof.
  intros Hu Hp. unfold RSuite.start_submit. simpl.
  rewrite (rsuite_call_filled w Hu Hp). reflexivity.
Qed.

Lemma rsuite_start_submit_empty (w : RSuite.World) (susp : list Tab) :
  RSuite.username w = "" \/ RSuite.password w = "" ->
  RSuite.start_submit (RSuite.mkSys w susp)
  = RSuite.mkSys (RSuite.push RSuite.fill_in_warning w) susp.
Proof.
  intros He. unfold RSuite.start_submit. simpl.
  rewrite (rsuite_call_empty w He). reflexivity.
Qed.

Lemma rsuite_settle_step (button_clickable : bool -> bool) (t : Tab)
    (o : Promise Response) (w : RSuite.World) :
  RSuite.step button_clickable (RSuite.FetchSettles 0 o) (RSuite.mkSys w [t])
  = RSuite.mkSys
      (RSuite.setLoading false
         match submit_result t o with
         | Succeeded =>
             RSuite.setTimeout 500 "/home"
               (RSuite.push
                  (RSuite.mkToast RSuite.success
                     (JStr (if is_login t then "Login successful!"
                            else "Registration successful!")) 2000) w)
         | Failed msg => RSuite.push (RSuite.mkToast RSuite.error msg 4000) w
         end)
      [].
Proof. simpl. rewrite rsuite_resume_result. reflexivity. Qed.

(** X9: a user action that submits, followed by the settling of its
    request, amounts to one call of [handleSubmit] on that outcome, and
    leaves no call suspended; in the component-library variant with an
    empty field the action alone is the whole call. *)
Theorem submit_then_settle_is_handleSubmit (o : Promise Response) :
  (forall (w : Tailwind.World) (e : Tailwind.UiEvent),
     Tailwind.checkingAuth w = false -> Tailwind.loading w = false ->
     tailwind_submit_event e ->
     Tailwind.run [Tailwind.Ui e; Tailwind.FetchSettles 0 o] (Tailwind.idle w)
     = Tailwind.idle (snd (Tailwind.handleSubmit o w))) /\
  (forall (button_clickable : bool -> bool) (w : RSuite.World)
          (e : RSuite.UiEvent),
     button_clickable false = true ->
     RSuite.checkingAuth w = false -> RSuite.loading w = false ->
     rsuite_submit_event e ->
     (RSuite.username w <> "" -> RSuite.password w <> "" ->
      RSuite.run button_clickable [RSuite.Ui e; RSuite.FetchSettles 0 o]
                 (RSuite.idle w)
      = RSuite.idle (snd (RSuite.handleSubmit o w))) /\
     (RSuite.username w = "" \/ RSuite.password w = "" ->
      RSuite.run button_clickable [RSuite.Ui e] (RSuite.idle w)
      = RSuite.idle (snd (RSuite.handleSubmit o w)))).
Proof.
  split.
  - intros w e Hc Hl He. unfold Tailwind.run, Tailwind.idle. cbn [foldl].
    unfold Tailwind.step at 2.
    rewrite (tailwind_submit_step e w [] Hc Hl He). cbn [app].
    rewrite tailwind_settle_step, tailwind_handleSubmit_result.
    destruct (submit_result (Tailwind.activeTab w) o); reflexivity.
  - intros bc w e Hb Hc Hl He. split.
    + intros Hu Hp. unfold RSuite.run, RSuite.idle. cbn [foldl].
      unfold RSuite.step at 2.
      rewrite (rsuite_submit_step bc e w [] Hb Hc Hl He),
              (rsuite_start_submit_filled w [] Hu Hp).
      cbn [app].
      rewrite rsuite_settle_step, (rsuite_handleSubmit_filled o w Hu Hp),
              rsuite_resume_result.
      destruct (submit_result (RSuite.activeTab w) o); reflexivity.
    + intros Hempty. unfold RSuite.run, RSuite.idle. cbn [foldl].
      unfold RSuite.step.
      rewrite (rsuite_submit_step bc e w [] Hb Hc Hl He),
              (rsuite_start_submit_empty w [] Hempty),
              (rsuite_handleSubmit_empty o w Hempty).
      reflexivity.
Qed.

Lemma submit_then_settle_is_handleSubmit_witness :
  Tailwind.run
    [Tailwind.Ui Tailwind.EnterInPassword;
     Tailwind.FetchSettles 0 (Rejects NetworkError)]
    (Tailwind.idle tailwind_ready)
  = Tailwind.idle (snd (Tailwind.handleSubmit (Rejects NetworkError)
                          tailwind_ready)) /\
  RSuite.run negb [RSuite.Ui RSuite.ClickSubmit]
    (RSuite.idle (RSuite.setUsername "" rsuite_filled))
  = RSuite.idle (snd (RSuite.handleSubmit (Rejects NetworkError)
                        (RSuite.setUsername "" rsuite_filled))).
Proof.
  destruct (submit_then_settle_is_handleSubmit (Rejects NetworkError))
    as [Ht Hr].
  split.
  - apply Ht; [ reflexivity | reflexivity | ].
    right; right; reflexivity.
  - destruct (Hr negb (RSuite.setUsername "" rsuite_filled) RSuite.ClickSubmit
                eq_refl eq_refl eq_refl (or_introl eq_refl)) as [_ Hempty].
    apply Hempty. left. reflexivity.
Defined.

Lemma rsuite_tab_step (button_clickable : bool -> bool) (t : Tab)
    (w : RSuite.World) (susp : list Tab) :
  RSuite.checkingAuth w = false ->
  RSuite.dispatch button_clickable (RSuite.SelectTab t) (RSuite.mkSys w susp)
  = RSuite.mkSys (RSuite.setActiveTab t w) susp.
Proof.
  intros Hc. unfold RSuite.dispatch, RSuite.render. simpl.
  rewrite Hc. reflexivity.
Qed.

Lemma tailwind_change_steps (name pass : string) (w : Tailwind.World)
    (susp : list Tab) :
  Tailwind.checkingAuth w = false -> Tailwind.loading w = false ->
  Tailwind.dispatch (Tailwind.ChangePassword pass)
    (Tailwind.dispatch (Tailwind.ChangeUsername name) (Tailwind.mkSys w susp))
  = Tailwind.mkSys (Tailwind.setPassword pass (Tailwind.setUsername name w))
                   susp.
Proof.
  intros Hc Hl. unfold Tailwind.dispatch, Tailwind.render. simpl.
  rewrite Hc. simpl. rewrite Hl. simpl. rewrite Hc. simpl. rewrite Hl.
  reflexivity.
Qed.

Lemma rsuite_change_steps (button_clickable : bool -> bool)
    (name pass : string) (w : RSuite.World) (susp : list Tab) :
  RSuite.checkingAuth w = false -> RSuite.loading w = false ->
  RSuite.dispatch button_clickable (RSuite.ChangePassword pass)
    (RSuite.dispatch button_clickable (RSuite.ChangeUsername name)
       (RSuite.mkSys w susp))
  = RSuite.mkSys (RSuite.setPassword pass (RSuite.setUsername name w)) susp.
Proof.
  intros Hc Hl. unfold RSuite.dispatch, RSuite.render. simpl.
  rewrite Hc. simpl. rewrite Hl. simpl. rewrite Hc. simpl. rewrite Hl.
  reflexivity.
Qed.

(** X10: the tabs stay usable while a submission is in flight, and an
    answer that arrives after the user has switched tab is reported with
    the tab the submission was started on ([handleSubmit] closed over it):
    the request went to that tab's endpoint and the message, fallback
    included, is that tab's, while the page now shows the other tab. *)
Theorem late_answer_uses_tab_of_submission (o : Promise Response) (t' : Tab) :
  (forall w : Tailwind.World,
     Tailwind.checkingAuth w = false -> Tailwind.loading w = false ->
     let s := Tailwind.run
                [Tailwind.Ui Tailwind.ClickSubmit;
                 Tailwind.Ui (tailwind_tab_click t');
                 Tailwind.FetchSettles 0 o]
                (Tailwind.idle w) in
     Tailwind.activeTab (Tailwind.world s) = t' /\
     Tailwind.error (Tailwind.world s)
     = match submit_result (Tailwind.activeTab w) o with
       | Succeeded => JStr ""
       | Failed msg => msg
       end /\
     Tailwind.fetches (Tailwind.world s)
     = (Tailwind.fetches w ++
        [submit_request (Tailwind.activeTab w) (Tailwind.username w)
                        (Tailwind.password w)])%list) /\
  (forall (button_clickable : bool -> bool) (w : RSuite.World),
     button_clickable false = true ->
     RSuite.checkingAuth w = false -> RSuite.loading w = false ->
     RSuite.username w <> "" -> RSuite.password w <> "" ->
     let s := RSuite.run button_clickable
                [RSuite.Ui RSuite.ClickSubmit;
                 RSuite.Ui (RSuite.SelectTab t');
                 RSuite.FetchSettles 0 o]
                (RSuite.idle w) in
     RSuite.activeTab (RSuite.world s) = t' /\
     RSuite.toasts (RSuite.world s)
     = (RSuite.toasts w ++
        [match submit_result (RSuite.activeTab w) o with
         | Succeeded =>
             RSuite.mkToast RSuite.success
               (JStr (if is_login (RSuite.activeTab w)
                      then "Login successful!"
                      else "Registration successful!")) 2000
         | Failed msg => RSuite.mkToast RSuite.error msg 4000
         end])%list /\
     RSuite.fetches (RSuite.world s)
     = (RSuite.fetches w ++
        [submit_request (RSuite.activeTab w) (RSuite.username w)
                        (RSuite.password w)])%list).
Proof.
  split.
  - intros w Hc Hl.
    assert (E : Tailwind.run
                  [Tailwind.Ui Tailwind.ClickSubmit;
                   Tailwind.Ui (tailwind_tab_click t');
                   Tailwind.FetchSettles 0 o]
                  (Tailwind.idle w)
                = Tailwind.mkSys
                    (Tailwind.setLoading false
                       match submit_result (Tailwind.activeTab w) o with
                       | Succeeded =>
                           Tailwind.navigate "/home"
                             (Tailwind.setError (JStr "")
                                (Tailwind.setActiveTab t'
                                   (Tailwind.issue
                                      (submit_request (Tailwind.activeTab w)
                                         (Tailwind.username w)
                                         (Tailwind.password w))
                                      (Tailwind.setLoading true
                                         (Tailwind.setError (JStr "") w)))))
                       | Failed msg =>
                           Tailwind.setError msg
                             (Tailwind.setError (JStr "")
                                (Tailwind.setActiveTab t'
                                   (Tailwind.issue
                                      (submit_request (Tailwind.activeTab w)
                                         (Tailwind.username w)
                                         (Tailwind.password w))
                                      (Tailwind.setLoading true
                                         (Tailwind.setError (JStr "") w)))))
                       end)
                    []).
    { unfold Tailwind.run, Tailwind.idle. cbn [foldl].
      unfold Tailwind.step at 2 3.
      rewrite (tailwind_submit_step Tailwind.ClickSubmit w [] Hc Hl
                 (or_introl eq_refl)).
      cbn [app]. rewrite tailwind_tab_step by exact Hc.
      apply tailwind_settle_step. }
    cbv zeta. rewrite E.
    destruct (submit_result (Tailwind.activeTab w) o); repeat split.
  - intros bc w Hb Hc Hl Hu Hp.
    assert (E : RSuite.run bc
                  [RSuite.Ui RSuite.ClickSubmit;
                   RSuite.Ui (RSuite.SelectTab t');
                   RSuite.FetchSettles 0 o]
                  (RSuite.idle w)
                = RSuite.step bc (RSuite.FetchSettles 0 o)
                    (RSuite.mkSys
                       (RSuite.setActiveTab t'
                          (RSuite.issue
                             (submit_request (RSuite.activeTab w)
                                (RSuite.username w) (RSuite.password w))
                             (RSuite.setLoading true w)))
                       [RSuite.activeTab w])).
    { unfold RSuite.run, RSuite.idle. cbn [foldl].
      unfold RSuite.step at 2 3.
      rewrite (rsuite_submit_step bc RSuite.ClickSubmit w [] Hb Hc Hl
                 (or_introl eq_refl)),
              (rsuite_start_submit_filled w [] Hu Hp).
      cbn [app]. rewrite rsuite_tab_step by exact Hc. reflexivity. }
    cbv zeta. rewrite E, rsuite_settle_step.
    destruct (submit_result (RSuite.activeTab w) o); repeat split.
Qed.

Lemma late_answer_uses_tab_of_submission_witness :
  let s := Tailwind.run
             [Tailwind.Ui Tailwind.ClickSubmit;
              Tailwind.Ui Tailwind.ClickRegisterTab;
              Tailwind.FetchSettles 0
                (Resolves (mkResponse 500 (Rejects SyntaxError)))]
             (Tailwind.idle tailwind_ready) in
  Tailwind.activeTab (Tailwind.world s) = register /\
  Tailwind.error (Tailwind.world s) = JStr "Login failed".
Proof.
  destruct (late_answer_uses_tab_of_submission
              (Resolves (mkResponse 500 (Rejects SyntaxError))) register)
    as [Ht _].
  destruct (Ht tailwind_ready eq_refl eq_refl) as (Htab & Herr & _).
  split; [ exact Htab | exact Herr ].
Defined.

(** X11: what the user types is what is sent: after typing a username and
    a password into a page that shows the form and is not loading, each of
    the three submitting actions (click on the button, Enter in either
    field) issues one POST to the endpoint of the active tab whose body
    holds exactly those two values; in the component-library variant when
    neither is empty. *)
Theorem typed_values_are_sent (name pass : string) :
  (forall (w : Tailwind.World) (e : Tailwind.UiEvent),
     Tailwind.checkingAuth w = false -> Tailwind.loading w = false ->
     tailwind_submit_event e ->
     Tailwind.fetches
       (Tailwind.world
          (Tailwind.run
             [Tailwind.Ui (Tailwind.ChangeUsername name);
              Tailwind.Ui (Tailwind.ChangePassword pass);
              Tailwind.Ui e]
             (Tailwind.idle w)))
     = (Tailwind.fetches w ++
        [mkRequest (API_BASE ++ endpoint (Tailwind.activeTab w)) "POST"
           "include" (Some (name, pass))])%list) /\
  (forall (button_clickable : bool -> bool) (w : RSuite.World)
          (e : RSuite.UiEvent),
     button_clickable false = true ->
     RSuite.checkingAuth w = false -> RSuite.loading w = false ->
     rsuite_submit_event e ->
     name <> "" -> pass <> "" ->
     RSuite.fetches
       (RSuite.world
          (RSuite.run button_clickable
             [RSuite.Ui (RSuite.ChangeUsername name);
              RSuite.Ui (RSuite.ChangePassword pass);
              RSuite.Ui e]
             (RSuite.idle w)))
     = (RSuite.fetches w ++
        [mkRequest (API_BASE ++ endpoint (RSuite.activeTab w)) "POST"
           "include" (Some (name, pass))])%list).
Proof.
  split.
  - intros w e Hc Hl He. unfold Tailwind.run, Tailwind.idle. cbn [foldl].
    unfold Tailwind.step.
    rewrite (tailwind_change_steps name pass w [] Hc Hl).
    rewrite (tailwind_submit_step e
               (Tailwind.setPassword pass (Tailwind.setUsername name w)) []
               Hc Hl He).
    reflexivity.
  - intros bc w e Hb Hc Hl He Hn Hp. unfold RSuite.run, RSuite.idle.
    cbn [foldl]. unfold RSuite.step.
    rewrite (rsuite_change_steps bc name pass w [] Hc Hl).
    rewrite (rsuite_submit_step bc e
               (RSuite.setPassword pass (RSuite.setUsername name w)) []
               Hb Hc Hl He).
    rewrite (rsuite_start_submit_filled
               (RSuite.setPassword pass (RSuite.setUsername name w)) []
               Hn Hp).
    reflexivity.
Qed.

Lemma typed_values_are_sent_witness :
  RSuite.fetches
    (RSuite.world
       (RSuite.run negb
          [RSuite.Ui (RSuite.ChangeUsername "bob");
           RSuite.Ui (RSuite.ChangePassword "hunter2");
           RSuite.Ui RSuite.EnterInPassword]
          (RSuite.idle (RSuite.setActiveTab register rsuite_filled))))
  = [mkRequest "/api/v1/auth/register" "POST" "include"
       (Some ("bob", "hunter2"))] /\
  Tailwind.fetches
    (Tailwind.world
       (Tailwind.run
          [Tailwind.Ui (Tailwind.ChangeUsername "bob");
           Tailwind.Ui (Tailwind.ChangePassword "");
           Tailwind.Ui Tailwind.ClickSubmit]
          (Tailwind.idle tailwind_ready)))
  = [mkRequest "/api/v1/auth/login" "POST" "include" (Some ("bob", ""))].
Proof.
  assert (Hn : "bob" <> "") by discriminate.
  assert (Hp : "hunter2" <> "") by discriminate.
  split.
  - destruct (typed_values_are_sent "bob" "hunter2") as [_ Hr].
    apply (Hr negb (RSuite.setActiveTab register rsuite_filled)
             RSuite.EnterInPassword eq_refl eq_refl eq_refl
             (or_intror (or_intror eq_refl)) Hn Hp).
  - destruct (typed_values_are_sent "bob" "") as [Ht _].
    apply (Ht tailwind_ready Tailwind.ClickSubmit eq_refl eq_refl
             (or_introl eq_refl)).
Defined.

(** X12: in the component-library variant the success path re-enables the
    page before it leaves it: once a 2xx answer has been handled,
    [loading] is [false] while the redirect only waits on its 500 ms timer,
    so a second click in that window sends the same submission again. *)
Theorem rsuite_resubmit_before_redirect
    (button_clickable : bool -> bool) (r : Response) (w : RSuite.World) :
  button_clickable false = true ->
  RSuite.checkingAuth w = false -> RSuite.loading w = false ->
  RSuite.username w <> "" -> RSuite.password w <> "" ->
  submit_succeeded r = true ->
  let req := submit_request (RSuite.activeTab w) (RSuite.username w)
                            (RSuite.password w) in
  let s := RSuite.run button_clickable
             [RSuite.Ui RSuite.ClickSubmit;
              RSuite.FetchSettles 0 (Resolves r);
              RSuite.Ui RSuite.ClickSubmit]
             (RSuite.idle w) in
  RSuite.fetches (RSuite.world s) = (RSuite.fetches w ++ [req; req])%list /\
  RSuite.navigations (RSuite.world s) = RSuite.navigations w /\
  RSuite.timers (RSuite.world s) = (RSuite.timers w ++ [(500, "/home")])%list /\
  RSuite.suspended s = [RSuite.activeTab w].
Proof.
  intros Hb Hc Hl Hu Hp Hs.
  assert (E : RSuite.run button_clickable
                [RSuite.Ui RSuite.ClickSubmit;
                 RSuite.FetchSettles 0 (Resolves r);
                 RSuite.Ui RSuite.ClickSubmit]
                (RSuite.idle w)
              = RSuite.start_submit
                  (RSuite.step button_clickable
                     (RSuite.FetchSettles 0 (Resolves r))
                     (RSuite.mkSys
                        (RSuite.issue
                           (submit_request (RSuite.activeTab w)
                              (RSuite.username w) (RSuite.password w))
                           (RSuite.setLoading true w))
                        [RSuite.activeTab w]))).
  { unfold RSuite.run, RSuite.idle. cbn [foldl].
    change (RSuite.step button_clickable (RSuite.Ui RSuite.ClickSubmit)
              (RSuite.mkSys w []))
      with (RSuite.dispatch button_clickable RSuite.ClickSubmit
              (RSuite.mkSys w [])).
    rewrite (rsuite_submit_step button_clickable RSuite.ClickSubmit w [] Hb Hc
               Hl (or_introl eq_refl)),
            (rsuite_start_submit_filled w [] Hu Hp).
    cbn [app]. rewrite rsuite_settle_step.
    unfold submit_result. rewrite Hs.
    unfold RSuite.step.
    apply (rsuite_submit_step button_clickable RSuite.ClickSubmit
             (RSuite.setLoading false
                (RSuite.setTimeout 500 "/home"
                   (RSuite.push
                      (RSuite.mkToast RSuite.success
                         (JStr (if is_login (RSuite.activeTab w)
                                then "Login successful!"
                                else "Registration successful!")) 2000)
                      (RSuite.issue
                         (submit_request (RSuite.activeTab w)
                            (RSuite.username w) (RSuite.password w))
                         (RSuite.setLoading true w)))))
             [] Hb Hc eq_refl (or_introl eq_refl)). }
  cbv zeta. rewrite E, rsuite_settle_step.
  unfold submit_result. rewrite Hs.
  rewrite (rsuite_start_submit_filled
             (RSuite.setLoading false
                (RSuite.setTimeout 500 "/home"
                   (RSuite.push
                      (RSuite.mkToast RSuite.success
                         (JStr (if is_login (RSuite.activeTab w)
                                then "Login successful!"
                                else "Registration successful!")) 2000)
                      (RSuite.issue
                         (submit_request (RSuite.activeTab w)
                            (RSuite.username w) (RSuite.password w))
                         (RSuite.setLoading true w)))))
             [] Hu Hp).
  simpl. rewrite <- app_assoc. repeat split.
Qed.

Lemma rsuite_resubmit_before_redirect_witness :
  length
    (RSuite.fetches
       (RSuite.world
          (RSuite.run negb
             [RSuite.Ui RSuite.ClickSubmit;
              RSuite.FetchSettles 0 (Resolves (mkResponse 200 (Resolves JNull)));
              RSuite.Ui RSuite.ClickSubmit]
             (RSuite.idle rsuite_filled))))
  = 2%nat.
Proof.
  assert (Hu : "alice" <> "") by discriminate.
  assert (Hp : "secret" <> "") by discriminate.
  destruct (rsuite_resubmit_before_redirect negb
              (mkResponse 200 (Resolves JNull)) rsuite_filled
              eq_refl eq_refl eq_refl Hu Hp eq_refl) as (Hf & _).
  rewrite Hf. reflexivity.
Defined.

(** ** The form while a submission is in flight *)

Lemma tailwind_step_in_flight (ev : Tailwind.Event) (s : Tailwind.Sys) :
  tailwind_in_flight_inv s -> tailwind_in_flight_inv (Tailwind.step ev s).
Proof.
  destruct s as [w susp]. unfold tailwind_in_flight_inv.
  cbn [Tailwind.suspended Tailwind.world].
  destruct susp as [ | t [ | t' l ] ]; intros Hinv; [ | | destruct Hinv ].
  - (* nothing suspended *)
    destruct ev as [e | i o]; [ | exact I ].
    unfold Tailwind.step, Tailwind.dispatch, Tailwind.render.
    cbn [Tailwind.world].
    destruct (Tailwind.checkingAuth w) eqn:Hc; [ exact I | ].
    cbn [Tailwind.inputs_disabled Tailwind.submit_disabled].
    destruct e; try (destruct (Tailwind.loading w) eqn:Hl);
      simpl; auto.
  - (* one call suspended *)
    destruct Hinv as (Hl & Hc & He).
    destruct ev as [e | i o].
    + unfold Tailwind.step, Tailwind.dispatch, Tailwind.render.
      cbn [Tailwind.world]. rewrite Hc.
      cbn [Tailwind.inputs_disabled Tailwind.submit_disabled]. rewrite Hl.
      destruct e; simpl; auto.
    + destruct i; simpl; auto.
Qed.

Lemma tailwind_run_in_flight (evs : list Tailwind.Event) (s : Tailwind.Sys) :
  tailwind_in_flight_inv s -> tailwind_in_flight_inv (Tailwind.run evs s).
Proof.
  revert s. induction evs as [ | ev evs IH ]; intros s H; simpl.
  - exact H.
  - apply IH, tailwind_step_in_flight, H.
Qed.

(** X13: what the user of the plain-styled page sees while a submission is
    in flight, after any sequence of events: the form (not the loading
    indicator) with both inputs and the button disabled, the button labelled
    "Logging in..." or "Registering..." after the active tab, and no error
    banner. *)
Theorem in_flight_view (w : Tailwind.World) (evs : list Tailwind.Event) :
  let s := Tailwind.run evs (Tailwind.idle w) in
  Tailwind.suspended s <> [] ->
  Tailwind.render (Tailwind.world s)
  = Tailwind.LoginRegisterForm
      (Tailwind.mkFormView
         (Tailwind.activeTab (Tailwind.world s)) None true true
         (if is_login (Tailwind.activeTab (Tailwind.world s))
          then "Logging in..." else "Registering...")).
Proof.
  intros s Hsusp.
  pose proof (tailwind_run_in_flight evs (Tailwind.idle w) I) as Hinv.
  fold s in Hinv. unfold tailwind_in_flight_inv in Hinv.
  destruct (Tailwind.suspended s) as [ | t [ | t' l ] ];
    [ congruence | | destruct Hinv ].
  destruct Hinv as (Hl & Hc & He).
  unfold Tailwind.render. rewrite Hc, Hl, He. reflexivity.
Qed.

Lemma in_flight_view_witness :
  Tailwind.render
    (Tailwind.world
       (Tailwind.run
          [Tailwind.Ui Tailwind.ClickRegisterTab; Tailwind.Ui Tailwind.ClickSubmit]
          (Tailwind.idle tailwind_ready)))
  = Tailwind.LoginRegisterForm
      (Tailwind.mkFormView register None true true "Registering...").
Proof.
  apply (in_flight_view tailwind_ready
           [Tailwind.Ui Tailwind.ClickRegisterTab;
            Tailwind.Ui Tailwind.ClickSubmit]).
  vm_compute. discriminate.
Defined.
